(** * TopHat monitor: change detection, baseline store, fetcher and retention

    A shallow embedding of [tophat_api_monitor.py] and [cleanup_files.py].
    Python dictionaries decoded from JSON become finite maps from field
    names to scalar values, the baseline is a set of strings, files are
    texts, and the paginated server, the clock and the file-system errors
    are explicit inputs.  Part I holds the model, Part II the properties. *)

From Stdlib Require Import ZArith List String Ascii Bool Lia.
From Stdlib Require Import Sorting.Sorted Sorting.Permutation.
From Stdlib Require Import Numbers.DecimalString.
From stdpp Require Import gmap strings list.

Local Open Scope Z_scope.

(** * Part I: the model *)

(** ** Python values and records *)

(** The scalar JSON values a record field can hold.  Floats, nested lists
    and nested objects never occur as identifiers and are left out. *)
Inductive pyval : Type :=
  | VNone
  | VBool (b : bool)
  | VInt (z : Z)
  | VStr (s : string).

#[global] Instance pyval_eq_dec : EqDecision pyval.
Proof. solve_decision. Defined.

(** A record is a Python [dict] with string keys. *)
Abbreviation record := (gmap string pyval).

(** [str(v)]. *)
Definition py_str (v : pyval) : string :=
  match v with
  | VNone => "None"
  | VBool true => "True"
  | VBool false => "False"
  | VInt z => NilZero.string_of_int (Z.to_int z)
  | VStr s => s
  end.

(** Truth value of [v], as tested by [if v], [not v] and [v or d]. *)
Definition truthy (v : pyval) : bool :=
  match v with
  | VNone => false
  | VBool b => b
  | VInt z => negb (z =? 0)
  | VStr s => negb (String.eqb s "")
  end.

(** [v or d]. *)
Definition py_or (v d : pyval) : pyval := if truthy v then v else d.

(** [d.get(k, dflt)]. *)
Definition dict_get (d : record) (k : string) (dflt : pyval) : pyval :=
  default dflt (d !! k).

(** [str(record.get('Id', ''))], the identifier the diff works on. *)
Definition str_id (r : record) : string := py_str (dict_get r "Id" (VStr "")).

(** ** Characters and strings

    A character is one of the 256 code points of [ascii]; a [str] is a
    [string]. *)

Definition LF : ascii := "010"%char.
Definition CR : ascii := "013"%char.

Definition is_digit (c : ascii) : bool := (("0" <=? c) && (c <=? "9"))%char.

Definition digit_val (c : ascii) : Z := Z.of_N (N_of_ascii c) - 48.

(** [c.isspace()]: the characters [str.strip()] removes. *)
Definition py_isspace (c : ascii) : bool :=
  let n := N_of_ascii c in
  ((9 <=? n) && (n <=? 13) || (28 <=? n) && (n <=? 32)
   || (n =? 133) || (n =? 160))%N.

Fixpoint lstrip (s : string) : string :=
  match s with
  | String c s' => if py_isspace c then lstrip s' else s
  | EmptyString => EmptyString
  end.

Fixpoint rstrip (s : string) : string :=
  match s with
  | String c s' =>
      match rstrip s' with
      | EmptyString => if py_isspace c then EmptyString else String c EmptyString
      | t => String c t
      end
  | EmptyString => EmptyString
  end.

(** [s.strip()]. *)
Definition strip (s : string) : string := rstrip (lstrip s).

(** [s.replace(c, '')] for a one-character [c]. *)
Fixpoint remove_char (c : ascii) (s : string) : string :=
  match s with
  | String a s' => if Ascii.eqb a c then remove_char c s' else String a (remove_char c s')
  | EmptyString => EmptyString
  end.

(** [s.split(sep)] for a one-character [sep]: never empty. *)
Fixpoint split_on (sep : ascii) (s : string) : list string :=
  match s with
  | EmptyString => [EmptyString]
  | String c s' =>
      if Ascii.eqb c sep then EmptyString :: split_on sep s'
      else match split_on sep s' with
           | p :: ps => String c p :: ps
           | [] => [String c EmptyString]
           end
  end.

(** [s.rfind(c)], [None] standing for -1. *)
Fixpoint rfind (c : ascii) (s : string) : option nat :=
  match s with
  | EmptyString => None
  | String a s' =>
      match rfind c s' with
      | Some i => Some (S i)
      | None => if Ascii.eqb a c then Some O else None
      end
  end.

(** ** [int(...)] *)

(** Decimal digits, single underscores allowed between two digits. *)
Fixpoint parse_digits (s : string) (acc : Z) (after_digit : bool) : option Z :=
  match s with
  | EmptyString => if after_digit then Some acc else None
  | String c s' =>
      if is_digit c then parse_digits s' (10 * acc + digit_val c) true
      else if Ascii.eqb c "_" && after_digit then parse_digits s' acc false
      else None
  end.

(** [int(s)] for a [str]: surrounding whitespace, an optional sign, digits.
    [None] stands for [ValueError]. *)
Definition py_int_of_str (s : string) : option Z :=
  match strip s with
  | String "-" r => Z.opp <$> parse_digits r 0 false
  | String "+" r => parse_digits r 0 false
  | t => parse_digits t 0 false
  end.

(** [int(v)]; [None] stands for the exception. *)
Definition py_int (v : pyval) : option Z :=
  match v with
  | VNone => None
  | VBool b => Some (if b then 1 else 0)
  | VInt z => Some z
  | VStr s => py_int_of_str s
  end.

(** ** Stable sorting

    [sorted] and [list.sort] are stable, with or without [reverse=True]:
    elements with equal keys keep their order.  [before k1 k2] says that
    an element of key [k1] may stand in front of one of key [k2]:
    [k1 <= k2] for an ascending sort, [k2 <= k1] for [reverse=True]. *)

Fixpoint insert_stable {A K : Type} (key : A -> K) (before : K -> K -> bool)
    (x : A) (l : list A) : list A :=
  match l with
  | [] => [x]
  | y :: l' =>
      if before (key x) (key y) then x :: l
      else y :: insert_stable key before x l'
  end.

Definition sort_stable {A K : Type} (key : A -> K) (before : K -> K -> bool)
    (l : list A) : list A :=
  foldr (insert_stable key before) [] l.

(** ** Change detection *)

(** [identify_new_records]: one pass over the current records, appending
    to [new_records] each one whose identifier is non-empty and unknown. *)
Definition identify_new_records
    (current_records : list record) (baseline_ids : gset string) : list record :=
  fold_left
    (fun new_records r =>
       let record_id := str_id r in
       if negb (String.eqb record_id "") && bool_decide (record_id ∉ baseline_ids)
       then new_records ++ [r]
       else new_records)
    current_records [].

(** The records the specification calls new. *)
Definition is_new (baseline_ids : gset string) (r : record) : Prop :=
  str_id r <> "" /\ str_id r ∉ baseline_ids.

#[global] Instance is_new_dec B r : Decision (is_new B r).
Proof. unfold is_new. apply _. Defined.

(** ** Timestamps in file names *)

(** A [datetime] without microseconds or time zone. *)
Record datetime : Type := mk_datetime {
  dt_year : Z; dt_month : Z; dt_day : Z;
  dt_hour : Z; dt_minute : Z; dt_second : Z
}.

(** [a <= b] on datetimes: field by field, year first. *)
Definition datetime_leb (a b : datetime) : bool :=
  (dt_year a <? dt_year b) || (dt_year a =? dt_year b) &&
  ((dt_month a <? dt_month b) || (dt_month a =? dt_month b) &&
  ((dt_day a <? dt_day b) || (dt_day a =? dt_day b) &&
  ((dt_hour a <? dt_hour b) || (dt_hour a =? dt_hour b) &&
  ((dt_minute a <? dt_minute b) || (dt_minute a =? dt_minute b) &&
  (dt_second a <=? dt_second b))))).

Definition is_leap (y : Z) : bool :=
  (y mod 4 =? 0) && (negb (y mod 100 =? 0) || (y mod 400 =? 0)).

Definition days_in_month (y m : Z) : Z :=
  if m =? 2 then (if is_leap y then 29 else 28)
  else if (m =? 4) || (m =? 6) || (m =? 9) || (m =? 11) then 30
  else 31.

(** The constructor [datetime(y, m, d, H, M, S)]; [None] is [ValueError]. *)
Definition make_datetime (y m d H M S : Z) : option datetime :=
  if (1 <=? y) && (y <=? 9999) && (1 <=? m) && (m <=? 12)
     && (1 <=? d) && (d <=? days_in_month y m)
     && (0 <=? H) && (H <=? 23) && (0 <=? M) && (M <=? 59)
     && (0 <=? S) && (S <=? 59)
  then Some (mk_datetime y m d H M S)
  else None.

(** *** The regular expression of [strptime]

    [_strptime] turns the format ['%Y%m%d_%H%M%S'] into the regular
    expression
[[
  (?P<Y>\d\d\d\d)(?P<m>1[0-2]|0[1-9]|[1-9])
  (?P<d>3[0-1]|[1-2]\d|0[1-9]|[1-9]| [1-9])_
  (?P<H>2[0-3]|[0-1]\d|\d)(?P<M>[0-5]\d|\d)(?P<S>6[0-1]|[0-5]\d|\d)
]]
    matches it at the start of the text with the usual backtracking (the
    alternatives of a group are tried from left to right), and then
    refuses a match that leaves text unconverted. *)

(** One alternative of a group: a fixed sequence of character classes. *)
Fixpoint match_classes (cs : list (ascii -> bool)) (s : string)
    : option (string * string) :=
  match cs with
  | [] => Some (EmptyString, s)
  | p :: cs' =>
      match s with
      | String c s' =>
          if p c then
            match match_classes cs' s' with
            | Some (m, rest) => Some (String c m, rest)
            | None => None
            end
          else None
      | EmptyString => None
      end
  end.

(** A group: the first alternative, from the left, after which the rest of
    the expression [k] matches. *)
Fixpoint match_group {A : Type} (alts : list (list (ascii -> bool)))
    (k : string -> string -> option A) (s : string) : option A :=
  match alts with
  | [] => None
  | a :: alts' =>
      match match_classes a s with
      | Some (m, rest) =>
          match k m rest with
          | Some r => Some r
          | None => match_group alts' k s
          end
      | None => match_group alts' k s
      end
  end.

Definition in_range (lo hi : ascii) (c : ascii) : bool :=
  ((lo <=? c) && (c <=? hi))%char.
Definition is_char (x : ascii) (c : ascii) : bool := Ascii.eqb c x.

Definition re_Y := [[is_digit; is_digit; is_digit; is_digit]].
Definition re_m :=
  [[is_char "1"; in_range "0" "2"]; [is_char "0"; in_range "1" "9"];
   [in_range "1" "9"]].
Definition re_d :=
  [[is_char "3"; in_range "0" "1"]; [in_range "1" "2"; is_digit];
   [is_char "0"; in_range "1" "9"]; [in_range "1" "9"];
   [is_char " "; in_range "1" "9"]].
Definition re_H :=
  [[is_char "2"; in_range "0" "3"]; [in_range "0" "1"; is_digit]; [is_digit]].
Definition re_M := [[in_range "0" "5"; is_digit]; [is_digit]].
Definition re_S :=
  [[is_char "6"; in_range "0" "1"]; [in_range "0" "5"; is_digit]; [is_digit]].

(** [int(found_dict[g])] for a matched group: digits, after an optional
    leading space. *)
Definition group_int (m : string) : Z :=
  fold_left (fun acc c => if is_digit c then 10 * acc + digit_val c else acc)
            (list_ascii_of_string m) 0.

(** The groups of the first match, and the text left after it. *)
Definition strptime_match (s : string)
    : option (string * string * string * string * string * string * string) :=
  match_group re_Y (fun gY => match_group re_m (fun gm => match_group re_d (fun gd =>
    match_group [[is_char "_"]] (fun _ => match_group re_H (fun gH =>
      match_group re_M (fun gM => match_group re_S (fun gS rest =>
        Some (gY, gm, gd, gH, gM, gS, rest)))))))) s.

(** [datetime.strptime(s, '%Y%m%d_%H%M%S')]; [None] is [ValueError]. *)
Definition strptime (s : string) : option datetime :=
  match strptime_match s with
  | Some (gY, gm, gd, gH, gM, gS, rest) =>
      if String.eqb rest "" then
        make_datetime (group_int gY) (group_int gm) (group_int gd)
                      (group_int gH) (group_int gM) (group_int gS)
      else None
  | None => None
  end.

(** [Path(name).stem]: the name without its last suffix. *)
Definition stem (name : string) : string :=
  match rfind "." name with
  | Some i =>
      if ((0 <? i) && (i <? String.length name - 1))%nat
      then substring 0 i name else name
  | None => name
  end.

(** The body of the [try] in [get_timestamped_files]: the timestamp a file
    name carries, [None] when the stem has fewer than three parts or
    [strptime] raises. *)
Definition file_timestamp (name : string) : option datetime :=
  let parts := split_on "_" (stem name) in
  if (3 <=? length parts)%nat then
    let date_part := nth (length parts - 2) parts EmptyString in
    let time_part := nth (length parts - 1) parts EmptyString in
    strptime (date_part +:+ "_" +:+ time_part)
  else None.

(** ** Timestamps written into file names *)

(** The character of a decimal digit. *)
Definition digit_char (d : Z) : ascii := ascii_of_N (Z.to_N (48 + d)).

(** A number below 100, zero-padded to two digits. *)
Definition two_digits (n : Z) : string :=
  String (digit_char (n / 10)) (String (digit_char (n mod 10)) EmptyString).

(** A number below 10000, zero-padded to four digits. *)
Definition four_digits (n : Z) : string :=
  String (digit_char (n / 1000))
    (String (digit_char (n / 100 mod 10))
       (String (digit_char (n / 10 mod 10))
          (String (digit_char (n mod 10)) EmptyString))).

(** [t.strftime('%Y%m%d_%H%M%S')], for a year of four digits. *)
Definition strftime (t : datetime) : string :=
  four_digits (dt_year t) +:+ two_digits (dt_month t) +:+ two_digits (dt_day t)
  +:+ "_" +:+ two_digits (dt_hour t) +:+ two_digits (dt_minute t)
  +:+ two_digits (dt_second t).

(** ** Files and directories *)

(** What a file holds: a text, or a JSON document kept as the value that
    was dumped into it. *)
Inductive file_body : Type :=
  | TextFile (text : string)
  | JsonRecords (records : list record)
  | JsonState (last_run : string) (records_fetched new_records_found : nat).

(** A directory: its files, in the order a listing yields them. *)
Abbreviation directory := (list (string * file_body)).

(** What the program cannot decide by itself: which names a glob pattern
    matches, and which files the system refuses to delete. *)
Record fs_env : Type := {
  glob_match : string -> string -> bool;   (* pattern, then name *)
  unlink_ok : string -> bool
}.

Definition file_names (dir : directory) : list string := map fst dir.

(** [dir.glob(pattern)]. *)
Definition glob (env : fs_env) (dir : directory) (pattern : string) : list string :=
  List.filter (glob_match env pattern) (file_names dir).

(** [filepath.unlink()]: [None] when it raises. *)
Definition unlink (env : fs_env) (dir : directory) (name : string)
    : option directory :=
  if unlink_ok env name && bool_decide (name ∈ file_names dir)
  then Some (List.filter (fun e => negb (String.eqb (fst e) name)) dir)
  else None.

(** [open(name, 'w')] followed by a complete write. *)
Fixpoint write_file (dir : directory) (name : string) (body : file_body)
    : directory :=
  match dir with
  | [] => [(name, body)]
  | (n, b) :: dir' =>
      if String.eqb n name then (n, body) :: dir'
      else (n, b) :: write_file dir' name body
  end.

(** ** Python slices *)

(** The index at which [l[:k]] ends and [l[k:]] starts, for a list of
    length [n]: a negative [k] counts from the end. *)
Definition slice_bound (k : Z) (n : nat) : nat :=
  if k <? 0 then Z.to_nat (Z.max 0 (Z.of_nat n + k))
  else Z.to_nat (Z.min k (Z.of_nat n)).

(** [l[:k]]. *)
Definition slice_to {A : Type} (k : Z) (l : list A) : list A :=
  firstn (slice_bound k (length l)) l.

(** [l[k:]]. *)
Definition slice_from {A : Type} (k : Z) (l : list A) : list A :=
  skipn (slice_bound k (length l)) l.

(** ** Retention ([cleanup_files.py]) *)

(** The loop of [get_timestamped_files]: the matching files whose name
    carries a timestamp, each with it. *)
Definition collect_timestamped (names : list string) : list (string * datetime) :=
  fold_left
    (fun files_with_timestamps filepath =>
       match file_timestamp filepath with
       | Some timestamp => files_with_timestamps ++ [(filepath, timestamp)]
       | None => files_with_timestamps
       end)
    names [].

(** [files.sort(key=lambda x: x[1], reverse=True)]. *)
Definition newest_first (files : list (string * datetime))
    : list (string * datetime) :=
  sort_stable snd (fun a b => datetime_leb b a) files.

(** [FileCleanup.get_timestamped_files]; [None] is a missing directory. *)
Definition get_timestamped_files (env : fs_env) (output_dir : option directory)
    (pattern : string) : list (string * datetime) :=
  match output_dir with
  | None => []
  | Some dir => newest_first (collect_timestamped (glob env dir pattern))
  end.

(** The deletion loop: the directory left, and the number of files
    deleted, added to [count]. *)
Definition delete_files (env : fs_env) (dry_run : bool)
    (files_to_delete : list (string * datetime)) (dir : directory) (count : nat)
    : directory * nat :=
  fold_left
    (fun '(d, deleted_count) '(filepath, _) =>
       if dry_run then (d, deleted_count)
       else match unlink env d filepath with
            | Some d' => (d', S deleted_count)
            | None => (d, deleted_count)
            end)
    files_to_delete (dir, count).

(** [FileCleanup.cleanup_old_files]: the directory left, and the pair
    [(kept, deleted)] it returns. *)
Definition cleanup_old_files (env : fs_env) (keep_count : Z)
    (output_dir : option directory) (pattern : string) (dry_run : bool)
    : option directory * (nat * nat) :=
  let files_with_timestamps := get_timestamped_files env output_dir pattern in
  match files_with_timestamps with
  | [] => (output_dir, (O, O))
  | _ =>
      let files_to_keep := slice_to keep_count files_with_timestamps in
      let files_to_delete := slice_from keep_count files_with_timestamps in
      let '(dir', deleted_count) :=
        delete_files env dry_run files_to_delete (default [] output_dir) O in
      ((fun _ => dir') <$> output_dir,
       (length files_to_keep,
        if dry_run then length files_to_delete else deleted_count))
  end.

(** The four categories of snapshot files. *)
Definition snapshot_patterns : list string :=
  ["fetched_records_*.csv"; "fetched_records_*.json";
   "new_records_*.csv"; "new_records_*.json"].

(** [FileCleanup.cleanup_all]: the directory left and the counts of each
    category. *)
Definition cleanup_all (env : fs_env) (keep_count : Z)
    (output_dir : option directory) (dry_run : bool)
    : option directory * list (nat * nat) :=
  fold_left
    (fun '(d, results) pattern =>
       let '(d', counts) := cleanup_old_files env keep_count d pattern dry_run in
       (d', results ++ [counts]))
    snapshot_patterns (output_dir, []).

(** ** Retention at the end of a run ([TopHatAPIMonitor.cleanup_old_files]) *)

(** The directory left and [total_deleted]. *)
Definition monitor_cleanup (env : fs_env) (keep_files : Z) (dir : directory)
    : directory * nat :=
  if keep_files <=? 0 then (dir, O)
  else
    fold_left
      (fun '(d, total_deleted) pattern =>
         let files_with_timestamps :=
           newest_first (collect_timestamped (glob env d pattern)) in
         let files_to_delete := slice_from keep_files files_with_timestamps in
         delete_files env false files_to_delete d total_deleted)
      snapshot_patterns (dir, O).

(** ** The paginated fetcher *)

#[global] Instance pyval_countable : Countable pyval.
Proof.
  refine (inj_countable'
    (fun v => match v with
              | VNone => inl tt
              | VBool b => inr (inl b)
              | VInt z => inr (inr (inl z))
              | VStr s => inr (inr (inr s))
              end)
    (fun x => match x with
              | inl _ => VNone
              | inr (inl b) => VBool b
              | inr (inr (inl z)) => VInt z
              | inr (inr (inr s)) => VStr s
              end) _).
  by intros [].
Defined.

(** Python's [set] compares its members with [==] and [hash]: [True] is
    [1] and [False] is [0] there. *)
Definition py_key (v : pyval) : pyval :=
  match v with
  | VBool b => VInt (if b then 1 else 0)
  | _ => v
  end.

(** [row.get('Id')], with [None] for a missing key and for a JSON null. *)
Definition row_id (row : record) : option pyval :=
  match row !! "Id" with
  | Some VNone => None
  | o => o
  end.

(** The body a page request returns, decoded: [{total, rows}], either key
    possibly absent. *)
Record page : Type := {
  page_total : option Z;
  page_rows : option (list record)
}.

Definition RECORDS_PER_PAGE : Z := 100.

(** The variables of [fetch_all_records], and two histories that the
    program does not keep: the page requests issued, each with the number
    of records accumulated when it was issued, and the rows of the pages
    processed. *)
Record fetch_state : Type := {
  all_records : list record;
  offset : Z;
  total_records : option Z;
  seen_ids : gset pyval;
  requests : list (Z * nat);
  pages : list (list record)
}.

(** [for row in rows: ...]: the new [all_records] and [seen_ids]. *)
Definition add_rows (rows : list record) (all : list record) (seen : gset pyval)
    : list record * gset pyval :=
  fold_left
    (fun '(all, seen) row =>
       match row_id row with
       | None => (all, seen)
       | Some record_id =>
           if bool_decide (py_key record_id ∈ seen) then (all, seen)
           else (all ++ [row], {[py_key record_id]} ∪ seen)
       end)
    rows (all, seen).

(** How one turn of [while True] ends. *)
Inductive loop_step : Type :=
  | Continue (s : fetch_state)
  | Break (s : fetch_state).

(** One turn of the loop.  [fetch_page offset] is the answer of the
    server, [None] when the request or its decoding fails. *)
Definition fetch_iter (fetch_page : Z -> option page) (full_scan : bool)
    (s : fetch_state) : loop_step :=
  let issued := requests s ++ [(offset s, length (all_records s))] in
  match fetch_page (offset s) with
  | None =>
      Break {| all_records := all_records s; offset := offset s;
               total_records := total_records s; seen_ids := seen_ids s;
               requests := issued; pages := pages s |}
  | Some data =>
      let total :=
        match total_records s with
        | None => default 0 (page_total data)
        | Some t => t
        end in
      match default [] (page_rows data) with
      | [] =>
          Break {| all_records := all_records s; offset := offset s;
                   total_records := Some total; seen_ids := seen_ids s;
                   requests := issued; pages := pages s |}
      | rows =>
          let '(all, seen) := add_rows rows (all_records s) (seen_ids s) in
          let s' := {| all_records := all;
                       offset := offset s + RECORDS_PER_PAGE;
                       total_records := Some total; seen_ids := seen;
                       requests := issued; pages := pages s ++ [rows] |} in
          if negb full_scan && (1000 <=? length all)%nat then Break s'
          else if total <=? offset s' then Break s'
          else Continue s'
      end
  end.

(** [while True], for at most [fuel] turns. *)
Fixpoint fetch_loop (fetch_page : Z -> option page) (full_scan : bool)
    (fuel : nat) (s : fetch_state) : option fetch_state :=
  match fuel with
  | O => None
  | S fuel' =>
      match fetch_iter fetch_page full_scan s with
      | Break s' => Some s'
      | Continue s' => fetch_loop fetch_page full_scan fuel' s'
      end
  end.

Definition fetch_init : fetch_state :=
  {| all_records := []; offset := 0; total_records := None; seen_ids := ∅;
     requests := []; pages := [] |}.

(** A number of turns the loop cannot exceed: the total is read from the
    first page and the offset grows by a page at each turn. *)
Definition fetch_fuel (fetch_page : Z -> option page) : nat :=
  match fetch_page 0 with
  | Some data => S (Z.to_nat (default 0 (page_total data) / RECORDS_PER_PAGE))
  | None => 1%nat
  end.

(** The state in which the loop of [fetch_all_records] ends. *)
Definition fetch_run (fetch_page : Z -> option page) (full_scan : bool)
    : fetch_state :=
  default fetch_init
    (fetch_loop fetch_page full_scan (fetch_fuel fetch_page) fetch_init).

(** [fetch_all_records(full_scan)]. *)
Definition fetch_all_records (fetch_page : Z -> option page) (full_scan : bool)
    : list record :=
  all_records (fetch_run fetch_page full_scan).

(** ** The [csv] module, excel dialect

    Delimiter [,], quote character (code 34), quotes doubled, line
    terminator CR LF, minimal quoting, no escape character, not strict.
    Fields are taken to be shorter than [csv.field_size_limit()]. *)

Definition DQUOTE : ascii := "034"%char.
Definition COMMA : ascii := ","%char.

Definition is_newline (c : ascii) : bool := Ascii.eqb c LF || Ascii.eqb c CR.

(** *** The writer *)

(** The characters that make the writer quote a field: the delimiter, the
    quote character and the characters of the line terminator. *)
Definition csv_special (c : ascii) : bool :=
  Ascii.eqb c COMMA || Ascii.eqb c DQUOTE || is_newline c.

(** [join_append_data]: the text of the field with its quotes doubled, and
    whether it has to stand between quotes. *)
Fixpoint join_append_data (field : string) : string * bool :=
  match field with
  | EmptyString => (EmptyString, false)
  | String c field' =>
      let '(text, quoted) := join_append_data field' in
      if csv_special c then
        (if Ascii.eqb c DQUOTE then String DQUOTE (String c text)
         else String c text, true)
      else (String c text, quoted)
  end.

(** [join_append]: one field as it is written. *)
Definition join_append (field : string) : string :=
  let '(text, quoted) := join_append_data field in
  if quoted then String DQUOTE (text +:+ String DQUOTE EmptyString) else text.

(** The fields of a record, separated by the delimiter. *)
Fixpoint join_fields (fields : list string) : string :=
  match fields with
  | [] => EmptyString
  | [f] => join_append f
  | f :: fs => join_append f +:+ String COMMA (join_fields fs)
  end.

Definition line_terminator : string := String CR (String LF EmptyString).

(** [writer.writerow(fields)] for fields that are already texts: a record
    made of one empty field is written as a pair of quotes. *)
Definition csv_writerow (fields : list string) : string :=
  let rec := join_fields fields in
  (if (0 <? length fields)%nat && String.eqb rec EmptyString
   then String DQUOTE (String DQUOTE EmptyString)
   else rec) +:+ line_terminator.

(** The text the writer gives a value: nothing for [None], the value
    itself for a [str], [str(v)] otherwise. *)
Definition csv_cell (v : pyval) : string :=
  match v with
  | VNone => EmptyString
  | _ => py_str v
  end.

(** [DictWriter._dict_to_list] with [restval=''] and
    [extrasaction='ignore']. *)
Definition dict_to_list (fieldnames : list string) (rowdict : record)
    : list pyval :=
  map (fun key => dict_get rowdict key (VStr EmptyString)) fieldnames.

(** [DictWriter.writerow(rowdict)]. *)
Definition dict_writerow (fieldnames : list string) (rowdict : record) : string :=
  csv_writerow (map csv_cell (dict_to_list fieldnames rowdict)).

(** [DictWriter.writeheader()]: the row that maps each name to itself. *)
Definition dict_writeheader (fieldnames : list string) : string :=
  csv_writerow fieldnames.

Fixpoint concat_text (l : list string) : string :=
  match l with
  | [] => EmptyString
  | s :: l' => s +:+ concat_text l'
  end.

(** [writeheader()] then [writerows(records)] into a file opened with
    [newline='']: the text of the file. *)
Definition csv_dump (fieldnames : list string) (records : list record) : string :=
  dict_writeheader fieldnames +:+
  concat_text (map (dict_writerow fieldnames) records).

(** *** The reader *)

Inductive parse_state : Type :=
  | START_RECORD | START_FIELD | IN_FIELD
  | IN_QUOTED_FIELD | QUOTE_IN_QUOTED_FIELD | EAT_CRNL.

#[global] Instance parse_state_eq_dec : EqDecision parse_state.
Proof. solve_decision. Defined.

(** The reader object: its state, the field being read and the fields of
    the record read so far. *)
Record reader : Type := {
  state : parse_state;
  field : string;
  fields : list string
}.

Definition set_state (st : parse_state) (r : reader) : reader :=
  {| state := st; field := field r; fields := fields r |}.

Definition parse_add_char (c : ascii) (r : reader) : reader :=
  {| state := state r; field := field r +:+ String c EmptyString;
     fields := fields r |}.

Definition parse_save_field (r : reader) : reader :=
  {| state := state r; field := EmptyString;
     fields := fields r ++ [field r] |}.

Definition parse_reset : reader :=
  {| state := START_RECORD; field := EmptyString; fields := [] |}.

(** The case [START_FIELD] of [parse_process_char], which [START_RECORD]
    falls through to.  The character [None] is the end-of-line mark that
    the reader feeds after each line. *)
Definition start_field (r : reader) (c : option ascii) : option reader :=
  match c with
  | None => Some (set_state START_RECORD (parse_save_field r))
  | Some a =>
      if is_newline a then Some (set_state EAT_CRNL (parse_save_field r))
      else if Ascii.eqb a DQUOTE then Some (set_state IN_QUOTED_FIELD r)
      else if Ascii.eqb a COMMA then Some (parse_save_field r)
      else Some (set_state IN_FIELD (parse_add_char a r))
  end.

(** [parse_process_char]; [None] is [csv.Error]. *)
Definition parse_process_char (r : reader) (c : option ascii) : option reader :=
  match state r with
  | START_RECORD =>
      match c with
      | None => Some r
      | Some a =>
          if is_newline a then Some (set_state EAT_CRNL r)
          else start_field (set_state START_FIELD r) c
      end
  | START_FIELD => start_field r c
  | IN_FIELD =>
      match c with
      | None => Some (set_state START_RECORD (parse_save_field r))
      | Some a =>
          if is_newline a then Some (set_state EAT_CRNL (parse_save_field r))
          else if Ascii.eqb a COMMA
          then Some (set_state START_FIELD (parse_save_field r))
          else Some (parse_add_char a r)
      end
  | IN_QUOTED_FIELD =>
      match c with
      | None => Some r
      | Some a =>
          if Ascii.eqb a DQUOTE then Some (set_state QUOTE_IN_QUOTED_FIELD r)
          else Some (parse_add_char a r)
      end
  | QUOTE_IN_QUOTED_FIELD =>
      match c with
      | None => Some (set_state START_RECORD (parse_save_field r))
      | Some a =>
          if Ascii.eqb a DQUOTE
          then Some (set_state IN_QUOTED_FIELD (parse_add_char a r))
          else if Ascii.eqb a COMMA
          then Some (set_state START_FIELD (parse_save_field r))
          else if is_newline a
          then Some (set_state EAT_CRNL (parse_save_field r))
          else Some (set_state IN_FIELD (parse_add_char a r))
      end
  | EAT_CRNL =>
      match c with
      | None => Some (set_state START_RECORD r)
      | Some a => if is_newline a then Some r else None
      end
  end.

(** The characters of one line, fed in turn. *)
Fixpoint feed_chars (r : reader) (line : string) : option reader :=
  match line with
  | EmptyString => Some r
  | String c line' =>
      match parse_process_char r (Some c) with
      | Some r' => feed_chars r' line'
      | None => None
      end
  end.

(** Iterating over the reader: the records it yields from the lines it is
    given, and whether it stopped on an error.  Each record starts from
    [parse_reset] and takes lines until the end-of-line mark leaves the
    state [START_RECORD]; at the end of the input a record that was begun
    is yielded as it stands. *)
Fixpoint reader_rows (r : reader) (lines : list string)
    : list (list string) * bool :=
  match lines with
  | [] =>
      if negb (String.eqb (field r) EmptyString)
         || bool_decide (state r = IN_QUOTED_FIELD)
      then ([fields (parse_save_field r)], false)
      else ([], false)
  | line :: lines' =>
      match feed_chars r line with
      | None => ([], true)
      | Some r1 =>
          match parse_process_char r1 None with
          | None => ([], true)
          | Some r2 =>
              if bool_decide (state r2 = START_RECORD) then
                let '(rows, err) := reader_rows parse_reset lines' in
                (fields r2 :: rows, err)
              else reader_rows r2 lines'
          end
      end
  end.

(** *** Text files *)

(** Reading in text mode without [newline='']: CR LF and a lone CR both
    become LF.  [after_cr] says that the previous character was a CR. *)
Fixpoint translate_newlines (after_cr : bool) (s : string) : string :=
  match s with
  | EmptyString => EmptyString
  | String c s' =>
      if Ascii.eqb c CR then String LF (translate_newlines true s')
      else if Ascii.eqb c LF then
        if after_cr then translate_newlines false s'
        else String LF (translate_newlines false s')
      else String c (translate_newlines false s')
  end.

Definition universal_newlines (s : string) : string :=
  translate_newlines false s.

(** Iterating over a text file: its lines, each with its LF. *)
Fixpoint file_lines (s : string) : list string :=
  match s with
  | EmptyString => []
  | String c s' =>
      if Ascii.eqb c LF then String LF EmptyString :: file_lines s'
      else match file_lines s' with
           | [] => [String c EmptyString]
           | l :: ls => String c l :: ls
           end
  end.

(** [csv.reader(f)] for [f] opened in text mode, read to its end. *)
Definition csv_read (text : string) : list (list string) * bool :=
  reader_rows parse_reset (file_lines (universal_newlines text)).

(** *** [DictReader] *)

(** The dictionary [DictReader] makes of a row: [dict(zip(fieldnames,
    row))], then [None] for the names the row is too short for. *)
Definition dict_of_row (fieldnames row : list string) : gmap string (option string) :=
  let d :=
    fold_left (fun d '(k, v) => <[k := Some v]> d) (zip fieldnames row) ∅ in
  fold_left (fun d k => <[k := None]> d) (drop (length row) fieldnames) d.

(** The dictionaries [DictReader] yields: the first row gives the field
    names, empty rows are skipped. *)
Definition dict_rows (rows : list (list string)) : list (gmap string (option string)) :=
  match rows with
  | [] => []
  | fieldnames :: rows' =>
      map (dict_of_row fieldnames)
          (List.filter (fun row => negb (bool_decide (row = []))) rows')
  end.

(** ** The baseline store *)

Definition baseline_fieldnames : list string :=
  ["Id"; "DocId"; "Employer"; "Ein"; "PlanName"; "DateReceived"; "Efile"].

(** [load_baseline]: [baseline_file] is the text of the file, [None] when
    there is none.  An error of the reader stops the loop and keeps the
    identifiers found before it. *)
Definition load_baseline (baseline_file : option string) : gset string :=
  match baseline_file with
  | None => ∅
  | Some text =>
      fold_left
        (fun baseline_ids row =>
           match row !! "Id" with
           | Some (Some id) =>
               if negb (String.eqb id EmptyString) then {[id]} ∪ baseline_ids
               else baseline_ids
           | _ => baseline_ids
           end)
        (dict_rows (csv_read text).1) ∅
  end.

(** [save_baseline]: the baseline file afterwards, writes succeeding. *)
Definition save_baseline (records : list record) (baseline_file : option string)
    : option string :=
  match records with
  | [] => baseline_file
  | _ =>
      let sorted_records := sort_stable str_id String.leb records in
      Some (csv_dump baseline_fieldnames sorted_records)
  end.

(** ** The address index *)

(** An entry of the reference file. *)
Record address_info : Type := {
  addr_name : string; address1 : string; address2 : string;
  addr_city : string; addr_state : string; addr_zip : string
}.

(** [str(ein).strip().replace('-', '')], the key of the index, used when
    the index is loaded and when it is queried. *)
Definition ein_clean (ein : string) : string := remove_char "-" (strip ein).

(** One row of [_load_reference_data], [ein] being the EIN column that is
    filled: the row is indexed when an address field is. *)
Definition index_reference_row (ein_to_address : gmap string address_info)
    (ein : string) (info : address_info) : gmap string address_info :=
  if negb (String.eqb ein EmptyString) then
    if negb (String.eqb (address1 info) EmptyString)
       || negb (String.eqb (addr_city info) EmptyString)
       || negb (String.eqb (addr_state info) EmptyString)
       || negb (String.eqb (addr_zip info) EmptyString)
    then <[ein_clean ein := info]> ein_to_address
    else ein_to_address
  else ein_to_address.

(** [get_address_for_ein]. *)
Definition get_address_for_ein (ein_to_address : gmap string address_info)
    (ein : string) : option address_info :=
  if String.eqb ein EmptyString then None
  else ein_to_address !! ein_clean ein.

(** ** The orchestrator *)

(** What a run reads and changes. *)
Record world : Type := {
  baseline_file : option string;
  state_file : option file_body;
  output_dir : directory;
  outbox : list (list record)
}.

(** What a run is given. *)
Record run_env : Type := {
  fs : fs_env;
  fetch_page : Z -> option page;
  start_stamp : string;      (* start_time.strftime('%Y%m%d_%H%M%S') *)
  start_iso : string;        (* start_time.isoformat() *)
  keep_files : Z;
  email_delivers : list record -> bool   (* send_email gets the digest out *)
}.

(** The calls a run makes to the differ, the writers and the mailer. *)
Inductive call : Type :=
  | IdentifyNew (records : list record) (baseline_ids : gset string)
  | SaveRecordsCsv (records : list record) (filename : string)
  | SaveRecordsJson (records : list record) (filename : string)
  | SaveBaseline (records : list record)
  | SaveState (state : file_body)
  | SendEmail (records : list record).

Inductive outcome : Type :=
  | Raised
  | Returned (records : list record).

Definition snapshot_fieldnames : list string :=
  ["DocId"; "Id"; "Employer"; "Ein"; "Pn"; "PlanName"; "FormType";
   "DateReceived"; "PdfLink"; "PdfCreated"; "TextFilePath"; "Efile"].

(** [save_records_csv]. *)
Definition save_records_csv (records : list record) (filename : string)
    (dir : directory) : directory :=
  match records with
  | [] => dir
  | _ => write_file dir filename (TextFile (csv_dump snapshot_fieldnames records))
  end.

(** [save_records_json]. *)
Definition save_records_json (records : list record) (filename : string)
    (dir : directory) : directory :=
  match records with
  | [] => dir
  | _ => write_file dir filename (JsonRecords records)
  end.

(** The sort key of [run]: [int(x.get('Id', 0) or 0)]. *)
Definition id_sort_key (x : record) : option Z :=
  py_int (py_or (dict_get x "Id" (VInt 0)) (VInt 0)).

(** [all_records.sort(key=..., reverse=True)]: [None] when a key raises. *)
Definition sort_by_id_desc (records : list record) : option (list record) :=
  if forallb (fun x => bool_decide (is_Some (id_sort_key x))) records
  then Some (sort_stable (fun x => default 0 (id_sort_key x))
                         (fun a b => b <=? a) records)
  else None.

(** [r.get('DateReceived', 'N/A')[:10]] evaluates: the value is a text. *)
Definition date_sliceable (r : record) : bool :=
  match dict_get r "DateReceived" (VStr "N/A") with
  | VStr _ => true
  | _ => false
  end.

(** [run(send_email_notification)]: how it ends, the world it leaves and
    the calls it made. *)
Definition run (env : run_env) (send_email_notification : bool) (w : world)
    : outcome * world * list call :=
  let baseline_ids := load_baseline (baseline_file w) in
  match fetch_all_records (fetch_page env) true with
  | [] =>
      (Returned [],
       {| baseline_file := baseline_file w; state_file := state_file w;
          output_dir := (monitor_cleanup (fs env) (keep_files env) (output_dir w)).1;
          outbox := outbox w |},
       [])
  | fetched =>
      match sort_by_id_desc fetched with
      | None => (Raised, w, [])
      | Some all_records =>
          let new_records := identify_new_records all_records baseline_ids in
          let timestamp := start_stamp env in
          let fetched_csv := "fetched_records_" +:+ timestamp +:+ ".csv" in
          let fetched_json := "fetched_records_" +:+ timestamp +:+ ".json" in
          let new_csv := "new_records_" +:+ timestamp +:+ ".csv" in
          let new_json := "new_records_" +:+ timestamp +:+ ".json" in
          let dir1 := save_records_csv all_records fetched_csv (output_dir w) in
          let dir2 := save_records_json all_records fetched_json dir1 in
          let dir3 := save_records_csv new_records new_csv dir2 in
          let dir4 := save_records_json new_records new_json dir3 in
          let new_state :=
            JsonState (start_iso env) (length all_records) (length new_records) in
          let mail := negb (bool_decide (new_records = [])) && send_email_notification in
          let calls :=
            [IdentifyNew all_records baseline_ids;
             SaveRecordsCsv all_records fetched_csv;
             SaveRecordsJson all_records fetched_json]
            ++ (if bool_decide (new_records = []) then []
                else [SaveRecordsCsv new_records new_csv;
                      SaveRecordsJson new_records new_json])
            ++ [SaveBaseline all_records; SaveState new_state]
            ++ (if mail then [SendEmail new_records] else []) in
          let sent :=
            if mail && email_delivers env new_records
            then outbox w ++ [new_records] else outbox w in
          let w' := {| baseline_file := save_baseline all_records (baseline_file w);
                       state_file := Some new_state;
                       output_dir := dir4; outbox := sent |} in
          if forallb date_sliceable
               (option_list (last all_records) ++ option_list (head all_records))
          then
            (Returned all_records,
             {| baseline_file := baseline_file w'; state_file := state_file w';
                output_dir := (monitor_cleanup (fs env) (keep_files env) dir4).1;
                outbox := sent |},
             calls)
          else (Raised, w', calls)
      end
  end.

(** ** Loading the address index ([_load_reference_data]) *)

(** A row as [DictReader] yields it: a text for each field name the row
    reaches, [None] for the others. *)
Abbreviation csv_row := (gmap string (option string)).







(** * Notions used in the statements *)

(** ** Order *)

(** [a] may stand in front of [b] in a list sorted by [key]. *)
Definition in_order {A K : Type} (key : A -> K) (before : K -> K -> bool)
    (a b : A) : Prop :=
  before (key a) (key b) = true.

(** ** Retention *)

(** A file name with the timestamp it carries. *)
Definition stamped (name : string) : option (string * datetime) :=
  (fun t => (name, t)) <$> file_timestamp name.

Definition carries_timestamp (name : string) : bool :=
  bool_decide (is_Some (file_timestamp name)).

(** The directory without the files of the given names. *)
Definition without (names : list string) (dir : directory) : directory :=
  List.filter (fun e => bool_decide (fst e ∉ names)) dir.

(** The environment in which no deletion is refused. *)
Definition error_free (env : fs_env) : fs_env :=
  {| glob_match := glob_match env; unlink_ok := fun _ => true |}.

(** The body of the loop of [monitor_cleanup] over the categories. *)
Definition monitor_step (env : fs_env) (keep_files : Z)
    (acc : directory * nat) (pattern : string) : directory * nat :=
  let files_with_timestamps :=
    newest_first (collect_timestamped (glob env acc.1 pattern)) in
  delete_files env false (slice_from keep_files files_with_timestamps) acc.1 acc.2.

(** A pattern whose only special character is the star, as the four
    patterns of the snapshot categories: the star stands for any text. *)
Fixpoint star_match (pattern : string) : string -> bool :=
  match pattern with
  | EmptyString => fun name => String.eqb name EmptyString
  | String c pattern' =>
      if Ascii.eqb c "*" then
        fix skip (name : string) : bool :=
          star_match pattern' name
          || match name with
             | EmptyString => false
             | String _ name' => skip name'
             end
      else
        fun name =>
          match name with
          | String d name' => Ascii.eqb c d && star_match pattern' name'
          | EmptyString => false
          end
  end.

(** A file system that refuses no deletion. *)
Definition plain_fs : fs_env :=
  {| glob_match := star_match; unlink_ok := fun _ => true |}.

(** The reading of C7 by its words: a date part of eight digits and a time
    part of six. *)
Definition strict_segments (date_part time_part : string) : bool :=
  (String.length date_part =? 8)%nat
  && forallb is_digit (list_ascii_of_string date_part)
  && (String.length time_part =? 6)%nat
  && forallb is_digit (list_ascii_of_string time_part).

(** ** The address index *)

(** The characters of a text. *)
Definition chars (s : string) : list ascii := list_ascii_of_string s.

(** [inner] is [s] without the white space around it. *)
Definition trimmed (s inner : string) : Prop :=
  exists l r,
    chars s = l ++ chars inner ++ r
    /\ Forall (fun c => py_isspace c = true) l
    /\ Forall (fun c => py_isspace c = true) r
    /\ (forall c, head (chars inner) = Some c -> py_isspace c = false)
    /\ (forall c, last (chars inner) = Some c -> py_isspace c = false).

(** A row of the reference file has an address when one of these fields is
    filled. *)
Definition has_address (info : address_info) : Prop :=
  address1 info <> EmptyString \/ addr_city info <> EmptyString
  \/ addr_state info <> EmptyString \/ addr_zip info <> EmptyString.

(** The reading of C10 by its words: every character that is neither a
    letter nor a digit is left out. *)
Definition is_alnum (c : ascii) : bool :=
  is_digit c || in_range "A" "Z" c || in_range "a" "z" c.

Definition alnum_only (s : string) : string :=
  string_of_list_ascii (List.filter is_alnum (chars s)).

Definition acme : address_info :=
  {| addr_name := "ACME"; address1 := "1 Main St"; address2 := EmptyString;
     addr_city := "Springfield"; addr_state := "IL"; addr_zip := "62701" |}.

(** ** The orchestrator *)




(** A server that does not answer. *)
Definition server_down : Z -> option page := fun _ => None.


Definition run_env_of (server : Z -> option page) : run_env :=
  {| fs := plain_fs; fetch_page := server;
     start_stamp := "20240302_060000"; start_iso := "2024-03-02T06:00:00";
     keep_files := 2; email_delivers := fun _ => true |}.

Definition world_before : world :=
  {| baseline_file := Some ("Id,DocId" +:+ line_terminator +:+ "5,77" +:+ line_terminator);
     state_file := Some (JsonState "2024-03-01T06:00:00" 1 1);
     output_dir := [("fetched_records_20240301_060000.csv", TextFile "a");
                    ("fetched_records_20240229_060000.csv", TextFile "b");
                    ("fetched_records_20240228_060000.csv", TextFile "c")];
     outbox := [] |}.

(** ** The fetcher *)

(** The identifier of a row as the set of seen identifiers holds it;
    [None] for a row the loop skips. *)
Definition row_key (row : record) : option pyval := py_key <$> row_id row.

(** The identifiers of the rows that have one. *)
Definition keys (rows : list record) : list pyval := omap row_key rows.

(** The total the loop works with once a page has been read in state
    [s]. *)
Definition total_after (s : fetch_state) (data : page) : Z :=
  match total_records s with
  | None => default 0 (page_total data)
  | Some t => t
  end.

(** A turn that processed the rows of a page. *)
Definition page_processed (fetch_page : Z -> option page) (s s' : fetch_state)
    : Prop :=
  exists data rows,
    fetch_page (offset s) = Some data
    /\ page_rows data = Some rows
    /\ rows <> []
    /\ add_rows rows (all_records s) (seen_ids s) = (all_records s', seen_ids s')
    /\ pages s' = pages s ++ [rows]
    /\ offset s' = offset s + RECORDS_PER_PAGE
    /\ total_records s' = Some (total_after s data).

(** A turn that processed no row. *)
Definition nothing_processed (s s' : fetch_state) : Prop :=
  all_records s' = all_records s /\ seen_ids s' = seen_ids s
  /\ pages s' = pages s /\ offset s' = offset s.

(** What the variables of the loop are to the pages processed so far. *)
Definition fetch_inv (fetch_page : Z -> option page) (s : fetch_state) : Prop :=
  add_rows (concat (pages s)) [] ∅ = (all_records s, seen_ids s)
  /\ offset s = RECORDS_PER_PAGE * Z.of_nat (length (pages s))
  /\ (forall (i : nat) rows,
        pages s !! i = Some rows ->
        exists data,
          fetch_page (RECORDS_PER_PAGE * Z.of_nat i) = Some data
          /\ page_rows data = Some rows).

(** A page request issued with fewer than 1000 records accumulated. *)
Definition below_budget (request : Z * nat) : Prop := (request.2 < 1000)%nat.

(** ** Retention, continued *)

(** The body of the loop of [cleanup_all] over the categories. *)
Definition cleanup_all_step (env : fs_env) (keep_count : Z) (dry_run : bool)
    (acc : option directory * list (nat * nat)) (pattern : string)
    : option directory * list (nat * nat) :=
  let '(d', counts) := cleanup_old_files env keep_count acc.1 pattern dry_run in
  (d', acc.2 ++ [counts]).

(** The names among [names] whose deletion the system does not refuse. *)
Definition deletable (env : fs_env) (names : list string) : list string :=
  List.filter (unlink_ok env) names.

(** A file system that refuses to delete the files of the given names. *)
Definition locked_fs (locked : list string) : fs_env :=
  {| glob_match := star_match;
     unlink_ok := fun name => negb (bool_decide (name ∈ locked)) |}.

(** Four snapshots of one category, and a file of another kind. *)
Definition four_snapshots : directory :=
  [("fetched_records_20240101_000000.csv", TextFile "a");
   ("fetched_records_20240301_120000.csv", TextFile "b");
   ("notes.txt", TextFile "c");
   ("fetched_records_20240201_093000.csv", TextFile "d");
   ("fetched_records_20231201_080000.csv", TextFile "e")].

(** ** The [csv] module, continued *)

(** Whether the character before the rest of a text is a CR, [b] saying so
    for the text read before [s]. *)
Fixpoint cr_after (b : bool) (s : string) : bool :=
  match s with
  | EmptyString => b
  | String c s' => cr_after (Ascii.eqb c CR) s'
  end.








(** ** The address index, continued *)





(** ** Timestamps, continued *)

(** A text of decimal digits. *)
Definition digits (s : string) : Prop :=
  forallb is_digit (list_ascii_of_string s) = true.

(** The names of the snapshot files a run that starts at [t] writes. *)
Definition snapshot_names (t : datetime) : list string :=
  ["fetched_records_" +:+ strftime t +:+ ".csv";
   "fetched_records_" +:+ strftime t +:+ ".json";
   "new_records_" +:+ strftime t +:+ ".csv";
   "new_records_" +:+ strftime t +:+ ".json"].

(** A datetime the constructor accepts. *)
Definition valid_datetime (t : datetime) : Prop :=
  make_datetime (dt_year t) (dt_month t) (dt_day t)
                (dt_hour t) (dt_minute t) (dt_second t) = Some t.

(** The name of the file a call writes in the output directory. *)
Definition call_filename (c : call) : option string :=
  match c with
  | SaveRecordsCsv _ filename => Some filename
  | SaveRecordsJson _ filename => Some filename
  | _ => None
  end.

(** * Part II: properties *)

(** ** Stable sorting *)

Section StableSort.
Context {A K : Type} (key : A -> K) (before : K -> K -> bool).

Lemma insert_stable_perm (x : A) (l : list A) :
  Permutation (insert_stable key before x l) (x :: l).
Proof.
  induction l as [|y l IH]; simpl; [done|].
  destruct (before (key x) (key y)); [done|].
  rewrite IH. apply perm_swap.
Qed.

Lemma sort_stable_perm (l : list A) : Permutation (sort_stable key before l) l.
Proof.
  induction l as [|x l IH]; simpl; [done|].
  unfold sort_stable in *. simpl. rewrite insert_stable_perm. by constructor.
Qed.

Lemma sort_stable_elem (x : A) (l : list A) :
  x ∈ sort_stable key before l <-> x ∈ l.
Proof. by rewrite (sort_stable_perm l). Qed.

Lemma sort_stable_length (l : list A) :
  length (sort_stable key before l) = length l.
Proof. by rewrite (sort_stable_perm l). Qed.

Lemma sort_stable_nil_inv (l : list A) : sort_stable key before l = [] -> l = [].
Proof.
  intros E. apply Permutation_nil. by rewrite <- E, sort_stable_perm.
Qed.

Hypothesis before_total : forall a b, before a b = false -> before b a = true.
Hypothesis before_trans :
  forall a b c, before a b = true -> before b c = true -> before a c = true.

Lemma insert_stable_sorted (x : A) (l : list A) :
  StronglySorted (in_order key before) l -> StronglySorted (in_order key before) (insert_stable key before x l).
Proof.
  induction 1 as [|y l Hs IH Hy]; simpl.
  - repeat constructor.
  - destruct (before (key x) (key y)) eqn:E.
    + constructor; [by constructor|]. constructor; [done|].
      eapply Forall_impl; [exact Hy|]. intros z Hz. unfold in_order in *. eauto.
    + constructor; [done|].
      rewrite (insert_stable_perm x l). constructor; [|done].
      unfold in_order. auto.
Qed.

Lemma sort_stable_sorted (l : list A) :
  StronglySorted (in_order key before) (sort_stable key before l).
Proof.
  induction l as [|x l IH]; [constructor|].
  unfold sort_stable in *. simpl. by apply insert_stable_sorted.
Qed.
End StableSort.

(** ** Change detection *)

Lemma identify_new_loop (B : gset string) (R acc : list record) :
  fold_left
    (fun new_records r =>
       let record_id := str_id r in
       if negb (String.eqb record_id "") && bool_decide (record_id ∉ B)
       then new_records ++ [r]
       else new_records)
    R acc
  = acc ++ filter (is_new B) R.
Proof.
  revert acc. induction R as [|r R IH]; intros acc; simpl.
  - by rewrite app_nil_r.
  - rewrite IH. rewrite filter_cons.
    destruct (String.eqb_spec (str_id r) "") as [E|E]; simpl.
    + rewrite decide_False; [done|]. unfold is_new. tauto.
    + destruct (bool_decide_reflect (str_id r ∉ B)) as [n|n].
      * rewrite decide_True; [|by split]. by rewrite <- app_assoc.
      * rewrite decide_False; [done|]. unfold is_new. tauto.
Qed.

Lemma identify_new_records_filter (R : list record) (B : gset string) :
  identify_new_records R B = filter (is_new B) R.
Proof. unfold identify_new_records. by rewrite identify_new_loop. Qed.

(** C1: [identify_new_records R B] is [R] filtered by "the string-coerced
    Id is non-empty and not in [B]": the same records, as often as they
    occur, in the order of [R]. *)
Theorem identify_new_records_spec (R : list record) (B : gset string) :
  identify_new_records R B
  = filter (fun r => str_id r <> "" /\ str_id r ∉ B) R
  /\ sublist (identify_new_records R B) R
  /\ (forall r, r ∈ identify_new_records R B <->
                r ∈ R /\ str_id r <> "" /\ str_id r ∉ B).
Proof.
  rewrite identify_new_records_filter. split; [done|]. split.
  - apply sublist_filter.
  - intros r. rewrite list_elem_of_filter. unfold is_new. tauto.
Qed.

(** ** Retention *)

Ltac bool_to_prop :=
  repeat first
    [ rewrite orb_true_iff | rewrite andb_true_iff
    | rewrite orb_false_iff | rewrite andb_false_iff
    | rewrite Z.ltb_lt | rewrite Z.eqb_eq | rewrite Z.leb_le
    | rewrite Z.ltb_ge | rewrite Z.eqb_neq | rewrite Z.leb_gt ].

Lemma datetime_leb_total (a b : datetime) :
  datetime_leb a b = false -> datetime_leb b a = true.
Proof.
  destruct a, b. unfold datetime_leb. simpl. bool_to_prop. lia.
Qed.

Lemma datetime_leb_trans (a b c : datetime) :
  datetime_leb a b = true -> datetime_leb b c = true -> datetime_leb a c = true.
Proof.
  destruct a, b, c. unfold datetime_leb. simpl. bool_to_prop. lia.
Qed.

Lemma collect_timestamped_loop (names : list string) (acc : list (string * datetime)) :
  fold_left
    (fun files_with_timestamps filepath =>
       match file_timestamp filepath with
       | Some timestamp => files_with_timestamps ++ [(filepath, timestamp)]
       | None => files_with_timestamps
       end)
    names acc
  = acc ++ omap stamped names.
Proof.
  revert acc. induction names as [|n names IH]; intros acc; simpl.
  - by rewrite app_nil_r.
  - rewrite IH. unfold stamped at 2. destruct (file_timestamp n); simpl.
    + by rewrite <- app_assoc.
    + done.
Qed.

Lemma collect_timestamped_omap (names : list string) :
  collect_timestamped names = omap stamped names.
Proof. unfold collect_timestamped. by rewrite collect_timestamped_loop. Qed.

Lemma omap_stamped_names (names : list string) :
  map fst (omap stamped names) = List.filter carries_timestamp names.
Proof.
  induction names as [|n names IH]; [done|].
  cbn [omap list_omap List.filter]. unfold stamped at 1, carries_timestamp at 1.
  destruct (file_timestamp n) as [t|]; cbn [fmap option_fmap option_map].
  - rewrite bool_decide_eq_true_2 by eauto. cbn. by f_equal.
  - rewrite bool_decide_eq_false_2 by (by intros [? ?]). done.
Qed.

Lemma omap_stamped_elem (names : list string) (n : string) (t : datetime) :
  (n, t) ∈ omap stamped names <-> n ∈ names /\ file_timestamp n = Some t.
Proof.
  rewrite list_elem_of_omap. unfold stamped. split.
  - intros (x & Hx & E). destruct (file_timestamp x) eqn:F; simplify_eq/=. done.
  - intros [Hn E]. exists n. by rewrite E.
Qed.

Lemma newest_first_perm (files : list (string * datetime)) :
  Permutation (newest_first files) files.
Proof. apply sort_stable_perm. Qed.

Lemma newest_first_sorted (files : list (string * datetime)) :
  StronglySorted (fun a b => datetime_leb (snd b) (snd a) = true)
                 (newest_first files).
Proof.
  apply (sort_stable_sorted snd (fun a b => datetime_leb b a)).
  - intros a b. apply datetime_leb_total.
  - intros a b c H1 H2. by apply (datetime_leb_trans c b a).
Qed.

(** *** Slices with a count that is not negative *)

Lemma slice_to_nonneg {A : Type} (k : Z) (l : list A) :
  0 <= k -> slice_to k l = firstn (Z.to_nat k) l.
Proof.
  intros Hk. unfold slice_to, slice_bound.
  destruct (Z.ltb_spec k 0); [lia|].
  destruct (Z.le_gt_cases k (Z.of_nat (length l))).
  - by rewrite Z.min_l.
  - rewrite Z.min_r by lia. rewrite Nat2Z.id.
    rewrite !firstn_all2; [done| lia | lia].
Qed.

Lemma slice_from_nonneg {A : Type} (k : Z) (l : list A) :
  0 <= k -> slice_from k l = skipn (Z.to_nat k) l.
Proof.
  intros Hk. unfold slice_from, slice_bound.
  destruct (Z.ltb_spec k 0); [lia|].
  destruct (Z.le_gt_cases k (Z.of_nat (length l))).
  - by rewrite Z.min_l.
  - rewrite Z.min_r by lia. rewrite Nat2Z.id.
    rewrite !skipn_all2; [done| lia | lia].
Qed.

(** *** The deletion loop *)

Lemma delete_files_dry (env : fs_env) (files : list (string * datetime))
    (dir : directory) (count : nat) :
  delete_files env true files dir count = (dir, count).
Proof.
  unfold delete_files. induction files as [|[f t] files IH]; simpl; done.
Qed.

Lemma delete_files_cons (env : fs_env) (dry_run : bool) (f : string) (t : datetime)
    (files : list (string * datetime)) (dir : directory) (count : nat) :
  delete_files env dry_run ((f, t) :: files) dir count
  = if dry_run then delete_files env dry_run files dir count
    else match unlink env dir f with
         | Some d' => delete_files env dry_run files d' (S count)
         | None => delete_files env dry_run files dir count
         end.
Proof.
  unfold delete_files. simpl. destruct dry_run; [done|].
  by destruct (unlink env dir f).
Qed.

Lemma without_nil (dir : directory) : without [] dir = dir.
Proof.
  unfold without. induction dir as [|e dir IH]; [done|].
  cbn [List.filter].
  rewrite bool_decide_eq_true_2 by set_solver. by rewrite IH.
Qed.

Lemma elem_of_without (names : list string) (dir : directory) (e : string * file_body) :
  e ∈ without names dir <-> e ∈ dir /\ fst e ∉ names.
Proof.
  unfold without. rewrite list_elem_of_In, filter_In, <- list_elem_of_In.
  by rewrite bool_decide_eq_true.
Qed.

Lemma file_names_without (names : list string) (dir : directory) (n : string) :
  n ∈ file_names (without names dir) <-> n ∈ file_names dir /\ n ∉ names.
Proof.
  unfold file_names. rewrite !list_elem_of_fmap. split.
  - intros (e & -> & He). apply elem_of_without in He as [He Hn]. eauto.
  - intros [(e & -> & He) Hn]. exists e. split; [done|].
    by apply elem_of_without.
Qed.

Lemma unlink_filter_without (f : string) (names : list string) (dir : directory) :
  without names (List.filter (fun e => negb (String.eqb (fst e) f)) dir)
  = without (f :: names) dir.
Proof.
  unfold without. induction dir as [|e dir IH]; [done|].
  cbn [List.filter].
  destruct (String.eqb_spec (fst e) f) as [E|E]; cbn [negb List.filter].
  - rewrite (bool_decide_eq_false_2 (fst e ∉ f :: names)) by set_solver. done.
  - destruct (decide (fst e ∈ names)) as [Hin|Hin].
    + rewrite !bool_decide_eq_false_2 by set_solver. done.
    + rewrite !bool_decide_eq_true_2 by set_solver. by rewrite IH.
Qed.

Lemma elem_of_unlinked (f : string) (dir : directory) (e : string * file_body) :
  e ∈ List.filter (fun e => negb (String.eqb (fst e) f)) dir
  <-> e ∈ dir /\ fst e <> f.
Proof.
  rewrite list_elem_of_In, filter_In, <- list_elem_of_In.
  by rewrite negb_true_iff, String.eqb_neq.
Qed.

Lemma file_names_unlinked (f : string) (dir : directory) (n : string) :
  n ∈ file_names (List.filter (fun e => negb (String.eqb (fst e) f)) dir)
  <-> n ∈ file_names dir /\ n <> f.
Proof.
  unfold file_names. rewrite !list_elem_of_fmap. split.
  - intros (e & -> & He). apply elem_of_unlinked in He as [He Hn]. eauto.
  - intros [(e & -> & He) Hn]. exists e. split; [done|].
    by apply elem_of_unlinked.
Qed.

(** With no refusal, the loop deletes each of the files it is given. *)
Lemma delete_files_live (env : fs_env) (files : list (string * datetime))
    (dir : directory) (count : nat) :
  NoDup (map fst files) ->
  (forall n, n ∈ map fst files -> unlink_ok env n = true /\ n ∈ file_names dir) ->
  delete_files env false files dir count
  = (without (map fst files) dir, (count + length files)%nat).
Proof.
  revert dir count. induction files as [|[f t] files IH]; intros dir count Hnd Hok.
  - simpl. rewrite without_nil. unfold delete_files. simpl. f_equal. lia.
  - rewrite delete_files_cons. cbn [map fst length] in *.
    apply NoDup_cons in Hnd as [Hf Hnd].
    destruct (Hok f) as [Hu Hin]; [by left|].
    unfold unlink. rewrite Hu. rewrite bool_decide_eq_true_2 by done.
    cbn [andb]. rewrite IH; [|done|].
    + rewrite unlink_filter_without. f_equal. lia.
    + intros n Hn. destruct (Hok n) as [Hu' Hin']; [by right|].
      split; [done|]. apply file_names_unlinked. split; [done|].
      intros ->. by apply Hf.
Qed.

(** Whatever the system refuses, the loop touches no file but those it is
    given. *)
Lemma delete_files_frame (env : fs_env) (dry_run : bool)
    (files : list (string * datetime)) (dir : directory) (count : nat)
    (e : string * file_body) :
  e ∈ dir -> fst e ∉ map fst files ->
  e ∈ (delete_files env dry_run files dir count).1.
Proof.
  revert dir count. induction files as [|[f t] files IH]; intros dir count He Hn.
  - done.
  - rewrite delete_files_cons. cbn [map fst] in Hn.
    apply not_elem_of_cons in Hn as [Hf Hn].
    destruct dry_run; [by apply IH|].
    unfold unlink. destruct (unlink_ok env f && bool_decide (f ∈ file_names dir)).
    + apply IH; [|done]. by apply elem_of_unlinked.
    + by apply IH.
Qed.

Lemma delete_files_subset (env : fs_env) (dry_run : bool)
    (files : list (string * datetime)) (dir : directory) (count : nat)
    (e : string * file_body) :
  e ∈ (delete_files env dry_run files dir count).1 -> e ∈ dir.
Proof.
  revert dir count. induction files as [|[f t] files IH]; intros dir count He.
  - done.
  - rewrite delete_files_cons in He. destruct dry_run; [by apply IH in He|].
    unfold unlink in He.
    destruct (unlink_ok env f && bool_decide (f ∈ file_names dir)).
    + apply IH in He. by apply elem_of_unlinked in He as [He _].
    + by apply IH in He.
Qed.

(** *** The files a pass ranks *)

Lemma ranked_eq (env : fs_env) (dir : directory) (pattern : string) :
  get_timestamped_files env (Some dir) pattern
  = newest_first (omap stamped (glob env dir pattern)).
Proof. unfold get_timestamped_files. by rewrite collect_timestamped_omap. Qed.

Lemma ranked_names (env : fs_env) (dir : directory) (pattern : string) :
  Permutation (map fst (get_timestamped_files env (Some dir) pattern))
              (List.filter carries_timestamp (glob env dir pattern)).
Proof.
  rewrite ranked_eq, <- omap_stamped_names.
  apply Permutation_map, newest_first_perm.
Qed.

Lemma ranked_elem (env : fs_env) (dir : directory) (pattern : string)
    (n : string) (t : datetime) :
  (n, t) ∈ get_timestamped_files env (Some dir) pattern
  <-> n ∈ glob env dir pattern /\ file_timestamp n = Some t.
Proof.
  rewrite ranked_eq. unfold newest_first. rewrite sort_stable_elem.
  apply omap_stamped_elem.
Qed.

Lemma glob_elem (env : fs_env) (dir : directory) (pattern n : string) :
  n ∈ glob env dir pattern
  <-> n ∈ file_names dir /\ glob_match env pattern n = true.
Proof. unfold glob. by rewrite list_elem_of_In, filter_In, <- list_elem_of_In. Qed.

Lemma ranked_name_elem (env : fs_env) (dir : directory) (pattern n : string) :
  n ∈ map fst (get_timestamped_files env (Some dir) pattern)
  -> n ∈ glob env dir pattern /\ is_Some (file_timestamp n).
Proof.
  rewrite list_elem_of_In, in_map_iff.
  intros ([n' t] & <- & Hin). apply list_elem_of_In, ranked_elem in Hin as [? ?].
  eauto.
Qed.

Lemma ranked_NoDup (env : fs_env) (dir : directory) (pattern : string) :
  NoDup (file_names dir) ->
  NoDup (map fst (get_timestamped_files env (Some dir) pattern)).
Proof.
  intros Hnd. rewrite ranked_names. unfold glob.
  apply NoDup_ListNoDup. do 2 apply List.NoDup_filter. by apply NoDup_ListNoDup.
Qed.

(** [cleanup_old_files] without its early return, for a count that is not
    negative. *)
Lemma cleanup_old_files_eq (env : fs_env) (keep_count : Z) (dir : directory)
    (pattern : string) (dry_run : bool) :
  0 <= keep_count ->
  let ranked := get_timestamped_files env (Some dir) pattern in
  let kept := firstn (Z.to_nat keep_count) ranked in
  let old := skipn (Z.to_nat keep_count) ranked in
  cleanup_old_files env keep_count (Some dir) pattern dry_run
  = (Some (delete_files env dry_run old dir O).1,
     (length kept,
      if dry_run then length old else (delete_files env dry_run old dir O).2)).
Proof.
  intros Hk ranked kept old. unfold cleanup_old_files. fold ranked.
  rewrite slice_to_nonneg, slice_from_nonneg by done. fold kept old.
  destruct ranked as [|x ranked'] eqn:E.
  - subst kept old. rewrite firstn_nil, skipn_nil. by destruct dry_run.
  - change (default [] (Some dir)) with dir.
    by destruct (delete_files env dry_run old dir 0).
Qed.

Lemma ranked_error_free (env : fs_env) (dir : option directory) (pattern : string) :
  get_timestamped_files (error_free env) dir pattern
  = get_timestamped_files env dir pattern.
Proof. done. Qed.

Lemma old_files_facts (env : fs_env) (k : nat) (dir : directory) (pattern : string) :
  NoDup (file_names dir) ->
  let ranked := get_timestamped_files env (Some dir) pattern in
  NoDup (map fst (skipn k ranked))
  /\ (forall n, n ∈ map fst (skipn k ranked) -> n ∈ file_names dir)
  /\ (forall n, n ∈ map fst (firstn k ranked) ->
                n ∈ file_names dir /\ n ∉ map fst (skipn k ranked)).
Proof.
  intros Hnd ranked.
  pose proof (ranked_NoDup env dir pattern Hnd) as Hr. fold ranked in Hr.
  rewrite <- (firstn_skipn k ranked), map_app in Hr.
  apply NoDup_app in Hr as (H1 & H2 & H3).
  assert (Hsub : forall n, n ∈ map fst ranked -> n ∈ file_names dir).
  { intros n Hn. apply ranked_name_elem in Hn as [Hn _].
    by apply glob_elem in Hn as [? _]. }
  split; [done|]. split.
  - intros n Hn. apply Hsub. rewrite <- (firstn_skipn k ranked), map_app.
    apply elem_of_app. by right.
  - intros n Hn. split; [|by apply H2].
    apply Hsub. rewrite <- (firstn_skipn k ranked), map_app.
    apply elem_of_app. by left.
Qed.

(** C6: the files that match the pattern and carry a timestamp are ranked
    newest first; a live pass that meets no refusal deletes the files
    ranked after the first [keep_count] and no other, and returns the two
    counts; a dry run leaves the directory as it is and returns the counts
    of the live pass that meets no refusal. *)
Theorem cleanup_keeps_newest (env : fs_env) (keep_count : Z) (dir : directory)
    (pattern : string) :
  0 <= keep_count ->
  NoDup (file_names dir) ->
  (forall n, n ∈ glob env dir pattern -> is_Some (file_timestamp n)) ->
  let ranked := get_timestamped_files env (Some dir) pattern in
  let kept := firstn (Z.to_nat keep_count) ranked in
  let old := skipn (Z.to_nat keep_count) ranked in
  Permutation (map fst ranked) (glob env dir pattern)
  /\ (forall n t, (n, t) ∈ ranked -> file_timestamp n = Some t)
  /\ StronglySorted (fun a b => datetime_leb (snd b) (snd a) = true) ranked
  /\ ((forall n, n ∈ map fst old -> unlink_ok env n = true) ->
      exists dir',
        cleanup_old_files env keep_count (Some dir) pattern false
        = (Some dir', (length kept, length old))
        /\ (forall e, e ∈ dir' <-> e ∈ dir /\ fst e ∉ map fst old)
        /\ (forall n, n ∈ map fst kept -> n ∈ file_names dir'))
  /\ cleanup_old_files env keep_count (Some dir) pattern true
     = (Some dir, (length kept, length old))
  /\ (cleanup_old_files env keep_count (Some dir) pattern true).2
     = (cleanup_old_files (error_free env) keep_count (Some dir) pattern false).2.
Proof.
  intros Hk Hnd Hparse ranked kept old.
  destruct (old_files_facts env (Z.to_nat keep_count) dir pattern Hnd)
    as (Hnd_old & Hold & Hkept).
  fold ranked in Hnd_old, Hold, Hkept. fold old in Hnd_old, Hold, Hkept.
  fold kept in Hkept.
  assert (Hdry : cleanup_old_files env keep_count (Some dir) pattern true
                 = (Some dir, (length kept, length old))).
  { rewrite cleanup_old_files_eq by done. fold ranked. fold kept old.
    by rewrite delete_files_dry. }
  assert (Hlive : forall env', glob_match env' = glob_match env ->
            (forall n, n ∈ map fst old -> unlink_ok env' n = true) ->
            cleanup_old_files env' keep_count (Some dir) pattern false
            = (Some (without (map fst old) dir), (length kept, length old))).
  { intros env' Hg Hok.
    assert (Er : get_timestamped_files env' (Some dir) pattern = ranked).
    { unfold ranked, get_timestamped_files, glob. by rewrite Hg. }
    rewrite cleanup_old_files_eq by done. rewrite Er. fold kept old.
    rewrite delete_files_live; [done|done|]. intros n Hn. split; auto. }
  split; [|split; [|split; [|split; [|split]]]].
  - unfold ranked. rewrite ranked_names.
    rewrite forallb_filter_id; [done|].
    apply forallb_forall. intros n Hn. apply bool_decide_eq_true.
    apply Hparse. by apply list_elem_of_In.
  - intros n t Hn. by apply ranked_elem in Hn as [_ ?].
  - apply newest_first_sorted.
  - intros Hok. exists (without (map fst old) dir). split; [|split].
    + by apply Hlive.
    + intros e. apply elem_of_without.
    + intros n Hn. apply file_names_without. by apply Hkept.
  - exact Hdry.
  - rewrite Hdry. rewrite Hlive; done.
Qed.

(** *** Files whose name carries no timestamp *)

Lemma file_timestamp_None_iff (f : string) :
  let parts := split_on "_" (stem f) in
  file_timestamp f = None
  <-> (length parts < 3)%nat
      \/ strptime (nth (length parts - 2) parts EmptyString +:+ "_"
                   +:+ nth (length parts - 1) parts EmptyString) = None.
Proof.
  intros parts. unfold file_timestamp. fold parts.
  destruct (Nat.leb_spec 3 (length parts)); split; intros; try done.
  - by right.
  - destruct H0; [lia|done].
  - left. lia.
Qed.

Lemma file_names_without_filter (names : list string) (dir : directory) :
  file_names (without names dir)
  = List.filter (fun n => bool_decide (n ∉ names)) (file_names dir).
Proof.
  unfold file_names, without. induction dir as [|e dir IH]; [done|].
  cbn [List.filter map]. destruct (bool_decide (e.1 ∉ names)); cbn [map].
  - by rewrite IH.
  - done.
Qed.

Lemma omap_stamped_drop (f : string) (names : list string) :
  file_timestamp f = None ->
  omap stamped (List.filter (fun n => bool_decide (n ∉ [f])) names)
  = omap stamped names.
Proof.
  intros Hf. induction names as [|n names IH]; [done|].
  cbn [List.filter]. destruct (decide (n = f)) as [->|Hn].
  - rewrite bool_decide_eq_false_2 by set_solver.
    cbn [omap list_omap]. unfold stamped at 2. rewrite Hf. done.
  - rewrite bool_decide_eq_true_2 by set_solver.
    cbn [omap list_omap]. by rewrite IH.
Qed.

Lemma filter_comm {A : Type} (p q : A -> bool) (l : list A) :
  List.filter p (List.filter q l) = List.filter q (List.filter p l).
Proof.
  induction l as [|x l IH]; [done|]. cbn [List.filter].
  destruct (p x) eqn:Ep, (q x) eqn:Eq; cbn [List.filter];
    rewrite ?Ep, ?Eq, IH; done.
Qed.

Lemma ranked_without (env : fs_env) (f : string) (dir : directory) (pattern : string) :
  file_timestamp f = None ->
  get_timestamped_files env (Some (without [f] dir)) pattern
  = get_timestamped_files env (Some dir) pattern.
Proof.
  intros Hf. rewrite !ranked_eq. f_equal. unfold glob.
  rewrite file_names_without_filter, filter_comm. by apply omap_stamped_drop.
Qed.

Lemma unlink_without (env : fs_env) (f g : string) (dir : directory) :
  g <> f ->
  unlink env (without [f] dir) g = without [f] <$> unlink env dir g.
Proof.
  intros Hg. unfold unlink.
  assert (E : bool_decide (g ∈ file_names (without [f] dir))
              = bool_decide (g ∈ file_names dir)).
  { apply bool_decide_ext. rewrite file_names_without. set_solver. }
  rewrite E. destruct (unlink_ok env g && bool_decide (g ∈ file_names dir)); [|done].
  cbn [fmap option_fmap option_map]. f_equal. unfold without. apply filter_comm.
Qed.

(** The deletion loop runs alike with and without such a file. *)
Lemma delete_files_without (env : fs_env) (dry_run : bool) (f : string)
    (files : list (string * datetime)) (dir : directory) (count : nat) :
  f ∉ map fst files ->
  delete_files env dry_run files (without [f] dir) count
  = (without [f] (delete_files env dry_run files dir count).1,
     (delete_files env dry_run files dir count).2).
Proof.
  revert dir count. induction files as [|[g t] files IH]; intros dir count Hf.
  - done.
  - cbn [map fst] in Hf. apply not_elem_of_cons in Hf as [Hg Hf].
    rewrite !delete_files_cons. destruct dry_run; [by apply IH|].
    rewrite unlink_without by done.
    destruct (unlink env dir g); cbn [fmap option_fmap option_map]; by apply IH.
Qed.

Lemma ranked_no_timestamp (env : fs_env) (f : string) (dir : option directory)
    (pattern : string) :
  file_timestamp f = None ->
  f ∉ map fst (get_timestamped_files env dir pattern).
Proof.
  intros Hf Hin. destruct dir as [dir|]; [|by apply elem_of_nil in Hin].
  apply ranked_name_elem in Hin as [_ [t Ht]]. congruence.
Qed.

Lemma not_elem_of_slices {A : Type} (x : A) (k : Z) (l : list A) :
  x ∉ l -> (x ∉ slice_to k l) /\ (x ∉ slice_from k l).
Proof.
  intros Hx. unfold slice_to, slice_from.
  rewrite <- (firstn_skipn (slice_bound k (length l)) l) in Hx.
  apply not_elem_of_app in Hx. exact Hx.
Qed.

Lemma map_fst_slice_from (k : Z) (l : list (string * datetime)) :
  map fst (slice_from k l) = slice_from k (map fst l).
Proof. unfold slice_from. by rewrite length_map, skipn_map. Qed.

Lemma monitor_cleanup_fold (env : fs_env) (keep_files : Z) (dir : directory) :
  monitor_cleanup env keep_files dir
  = if keep_files <=? 0 then (dir, O)
    else fold_left (monitor_step env keep_files) snapshot_patterns (dir, O).
Proof.
  unfold monitor_cleanup. destruct (keep_files <=? 0); [done|].
  generalize (dir, O). generalize snapshot_patterns.
  intros patterns. induction patterns as [|p patterns IH]; intros acc; [done|].
  cbn [fold_left]. rewrite <- IH. by destruct acc.
Qed.

Lemma monitor_step_old (env : fs_env) (keep_files : Z) (f : string)
    (d : directory) (pattern : string) :
  file_timestamp f = None ->
  f ∉ map fst (slice_from keep_files
                 (newest_first (collect_timestamped (glob env d pattern)))).
Proof.
  intros Hf. rewrite map_fst_slice_from. apply not_elem_of_slices.
  by apply (ranked_no_timestamp env f (Some d) pattern).
Qed.

Lemma monitor_step_without (env : fs_env) (keep_files : Z) (f : string)
    (pattern : string) (d : directory) (n : nat) :
  file_timestamp f = None ->
  monitor_step env keep_files (without [f] d, n) pattern
  = (without [f] (monitor_step env keep_files (d, n) pattern).1,
     (monitor_step env keep_files (d, n) pattern).2).
Proof.
  intros Hf. unfold monitor_step. cbn [fst snd].
  pose proof (ranked_without env f d pattern Hf) as E.
  unfold get_timestamped_files in E. rewrite E.
  apply delete_files_without. by apply monitor_step_old.
Qed.

Lemma monitor_loop_without (env : fs_env) (keep_files : Z) (f : string)
    (patterns : list string) (d : directory) (n : nat) :
  file_timestamp f = None ->
  fold_left (monitor_step env keep_files) patterns (without [f] d, n)
  = (without [f] (fold_left (monitor_step env keep_files) patterns (d, n)).1,
     (fold_left (monitor_step env keep_files) patterns (d, n)).2).
Proof.
  intros Hf. revert d n. induction patterns as [|p patterns IH]; intros d n.
  - done.
  - cbn [fold_left]. rewrite monitor_step_without by done.
    destruct (monitor_step env keep_files (d, n) p) as [d' n']. apply IH.
Qed.

Lemma monitor_loop_frame (env : fs_env) (keep_files : Z)
    (e : string * file_body) (patterns : list string) (d : directory) (n : nat) :
  file_timestamp (fst e) = None -> e ∈ d ->
  e ∈ (fold_left (monitor_step env keep_files) patterns (d, n)).1.
Proof.
  intros Hf. revert d n. induction patterns as [|p patterns IH]; intros d n He.
  - done.
  - cbn [fold_left]. unfold monitor_step at 2. cbn [fst snd].
    destruct (delete_files env false _ d n) as [d' n'] eqn:E.
    apply IH. change d' with (d', n').1. rewrite <- E.
    apply delete_files_frame; [done|]. by apply monitor_step_old.
Qed.

(** C7, as the code has it: a file whose stem has fewer than three parts,
    or whose last two parts [strptime] refuses, is not among the files a
    pass ranks; the pass, live or not, leaves it where it is and returns
    the counts it returns without that file.  The same holds for the pass
    at the end of a run. *)
Theorem unparsable_file_untracked (env : fs_env) (keep_count : Z)
    (dir : directory) (pattern : string) (dry_run : bool)
    (f : string) (body : file_body) :
  (f, body) ∈ dir ->
  (length (split_on "_" (stem f)) < 3)%nat
  \/ strptime
       (nth (length (split_on "_" (stem f)) - 2) (split_on "_" (stem f)) EmptyString
        +:+ "_" +:+
        nth (length (split_on "_" (stem f)) - 1) (split_on "_" (stem f)) EmptyString)
     = None ->
  (f ∉ map fst (get_timestamped_files env (Some dir) pattern))
  /\ (exists dir',
        (cleanup_old_files env keep_count (Some dir) pattern dry_run).1 = Some dir'
        /\ (f, body) ∈ dir')
  /\ (cleanup_old_files env keep_count (Some dir) pattern dry_run).2
     = (cleanup_old_files env keep_count (Some (without [f] dir)) pattern dry_run).2
  /\ (f, body) ∈ (monitor_cleanup env keep_count dir).1
  /\ (monitor_cleanup env keep_count dir).2
     = (monitor_cleanup env keep_count (without [f] dir)).2.
Proof.
  intros Hin Hparts. apply file_timestamp_None_iff in Hparts as Hf.
  pose proof (ranked_no_timestamp env f (Some dir) pattern Hf) as Hno.
  split; [done|]. split; [|split; [|split]].
  - unfold cleanup_old_files.
    destruct (get_timestamped_files env (Some dir) pattern) as [|x l] eqn:E.
    + by exists dir.
    + rewrite <- E in Hno |- *. change (default [] (Some dir)) with dir.
      destruct (delete_files env dry_run _ dir 0) as [d' c'] eqn:D.
      exists d'. split; [done|]. change d' with (d', c').1. rewrite <- D.
      apply delete_files_frame; [done|]. cbn [fst].
      rewrite map_fst_slice_from. by apply not_elem_of_slices.
  - unfold cleanup_old_files. rewrite (ranked_without env f dir pattern Hf).
    destruct (get_timestamped_files env (Some dir) pattern) as [|x l] eqn:E.
    + done.
    + rewrite <- E in Hno |- *. change (default [] (Some ?d)) with d.
      rewrite delete_files_without.
      * by destruct (delete_files env dry_run _ dir 0).
      * rewrite map_fst_slice_from. by apply not_elem_of_slices.
  - rewrite monitor_cleanup_fold. destruct (keep_count <=? 0); [done|].
    by apply monitor_loop_frame.
  - rewrite !monitor_cleanup_fold. destruct (keep_count <=? 0); [done|].
    by rewrite monitor_loop_without.
Qed.

(** *** Retention on a directory of four files *)

Lemma cleanup_keeps_newest_example :
  cleanup_old_files plain_fs 2
    (Some [("fetched_records_20240101_000000.csv", TextFile "a");
           ("fetched_records_20240301_120000.csv", TextFile "b");
           ("notes.txt", TextFile "c");
           ("fetched_records_20240201_093000.csv", TextFile "d")])
    "fetched_records_*.csv" false
  = (Some [("fetched_records_20240301_120000.csv", TextFile "b");
           ("notes.txt", TextFile "c");
           ("fetched_records_20240201_093000.csv", TextFile "d")],
     (2%nat, 1%nat))
  /\ cleanup_old_files plain_fs 2
       (Some [("fetched_records_20240101_000000.csv", TextFile "a");
              ("fetched_records_20240301_120000.csv", TextFile "b");
              ("notes.txt", TextFile "c");
              ("fetched_records_20240201_093000.csv", TextFile "d")])
       "fetched_records_*.csv" true
     = (Some [("fetched_records_20240101_000000.csv", TextFile "a");
              ("fetched_records_20240301_120000.csv", TextFile "b");
              ("notes.txt", TextFile "c");
              ("fetched_records_20240201_093000.csv", TextFile "d")],
        (2%nat, 1%nat)).
Proof.
  set (dir := [("fetched_records_20240101_000000.csv", TextFile "a");
               ("fetched_records_20240301_120000.csv", TextFile "b");
               ("notes.txt", TextFile "c");
               ("fetched_records_20240201_093000.csv", TextFile "d")]).
  assert (H0 : 0 <= 2) by lia.
  assert (Hnd : NoDup (file_names dir)).
  { apply NoDup_ListNoDup. repeat constructor; simpl; intuition discriminate. }
  assert (Hts : forall n, n ∈ glob plain_fs dir "fetched_records_*.csv" ->
                          is_Some (file_timestamp n)).
  { intros n Hn. apply list_elem_of_In in Hn. vm_compute in Hn.
    destruct Hn as [<-|[<-|[<-|[]]]]; vm_compute; eexists; reflexivity. }
  destruct (cleanup_keeps_newest plain_fs 2 dir "fetched_records_*.csv" H0 Hnd Hts)
    as (_ & _ & _ & Hlive & Hdry & _).
  split.
  - destruct Hlive as (dir' & E & _ & _); [done|]. vm_compute. reflexivity.
  - rewrite Hdry. vm_compute. reflexivity.
Defined.

(** A file of the category whose last two parts are no timestamp stays. *)
Lemma unparsable_file_untracked_example :
  (exists dir',
     (cleanup_old_files plain_fs 0
        (Some [("fetched_records_latest.csv", TextFile "a");
               ("fetched_records_20240301_120000.csv", TextFile "b")])
        "fetched_records_*.csv" false).1 = Some dir'
     /\ ("fetched_records_latest.csv", TextFile "a") ∈ dir')
  /\ (cleanup_old_files plain_fs 0
        (Some [("fetched_records_latest.csv", TextFile "a");
               ("fetched_records_20240301_120000.csv", TextFile "b")])
        "fetched_records_*.csv" false).2 = (0%nat, 1%nat).
Proof.
  set (dir := [("fetched_records_latest.csv", TextFile "a");
               ("fetched_records_20240301_120000.csv", TextFile "b")]).
  assert (Hin : ("fetched_records_latest.csv", TextFile "a") ∈ dir) by (left).
  assert (Hp : (length (split_on "_" (stem "fetched_records_latest.csv")) < 3)%nat
    \/ strptime
         (nth (length (split_on "_" (stem "fetched_records_latest.csv")) - 2)
              (split_on "_" (stem "fetched_records_latest.csv")) EmptyString
          +:+ "_" +:+
          nth (length (split_on "_" (stem "fetched_records_latest.csv")) - 1)
              (split_on "_" (stem "fetched_records_latest.csv")) EmptyString)
       = None).
  { right. vm_compute. reflexivity. }
  destruct (unparsable_file_untracked plain_fs 0 dir "fetched_records_*.csv" false
              "fetched_records_latest.csv" (TextFile "a") Hin Hp)
    as (_ & Hstay & Hcount & _).
  split; [exact Hstay|]. vm_compute. reflexivity.
Defined.

(** C7, as worded, fails: the last two parts of this name, seven digits
    and three, are no strict pair, yet [strptime] reads them as the fifth
    of November 2024, 01:02:03, and the pass that keeps one file deletes
    this one. *)
Lemma lenient_timestamp_tracked :
  split_on "_" (stem "fetched_records_2024115_123.csv")
  = ["fetched"; "records"; "2024115"; "123"]
  /\ strict_segments "2024115" "123" = false
  /\ file_timestamp "fetched_records_2024115_123.csv"
     = Some (mk_datetime 2024 11 5 1 2 3)
  /\ cleanup_old_files plain_fs 1
       (Some [("fetched_records_2024115_123.csv", TextFile "a");
              ("fetched_records_20250101_000000.csv", TextFile "b")])
       "fetched_records_*.csv" false
     = (Some [("fetched_records_20250101_000000.csv", TextFile "b")],
        (1%nat, 1%nat))
  /\ monitor_cleanup plain_fs 1
       [("fetched_records_2024115_123.csv", TextFile "a");
        ("fetched_records_20250101_000000.csv", TextFile "b")]
     = ([("fetched_records_20250101_000000.csv", TextFile "b")], 1%nat).
Proof. vm_compute. repeat split. Qed.

(** ** The address index *)

Lemma remove_char_chars (c : ascii) (s : string) :
  chars (remove_char c s) = List.filter (fun a => negb (Ascii.eqb a c)) (chars s).
Proof.
  unfold chars. induction s as [|a s IH]; [done|].
  cbn [remove_char list_ascii_of_string List.filter].
  destruct (Ascii.eqb a c); cbn [negb list_ascii_of_string]; by rewrite IH.
Qed.

Lemma lstrip_spec (s : string) :
  exists l,
    chars s = l ++ chars (lstrip s)
    /\ Forall (fun c => py_isspace c = true) l
    /\ (forall c, head (chars (lstrip s)) = Some c -> py_isspace c = false).
Proof.
  unfold chars. induction s as [|a s (l & E & Hl & Hh)].
  - exists []. by repeat split.
  - cbn [lstrip]. destruct (py_isspace a) eqn:Ea.
    + exists (a :: l). cbn [list_ascii_of_string]. rewrite E at 1.
      split; [done|]. split; [by constructor|done].
    + exists []. split; [done|]. split; [constructor|].
      cbn. intros c [= <-]. done.
Qed.

Lemma rstrip_spec (s : string) :
  exists r,
    chars s = chars (rstrip s) ++ r
    /\ Forall (fun c => py_isspace c = true) r
    /\ (forall c, last (chars (rstrip s)) = Some c -> py_isspace c = false)
    /\ (rstrip s = EmptyString \/ head (chars (rstrip s)) = head (chars s)).
Proof.
  unfold chars. induction s as [|a s (r & E & Hr & Hl & Hh)].
  - exists []. split_and!; [done|constructor|done|by left].
  - cbn [rstrip]. destruct (rstrip s) as [|b t] eqn:Et.
    + cbn [list_ascii_of_string app] in E. destruct (py_isspace a) eqn:Ea.
      * exists (a :: r). cbn [list_ascii_of_string app]. rewrite E.
        split_and!; [done|by constructor|done|by left].
      * exists r. cbn [list_ascii_of_string app]. rewrite E.
        split_and!; [done|done| |by right]. cbn. by intros c [= <-].
    + exists r. cbn [list_ascii_of_string app] in *. rewrite E.
      split_and!; [done|done| |by right].
      intros c Hc. apply Hl. rewrite <- Hc. by destruct (list_ascii_of_string t).
Qed.

Lemma strip_trimmed (s : string) : trimmed s (strip s).
Proof.
  unfold trimmed, strip.
  destruct (lstrip_spec s) as (l & El & Hl & Hh).
  destruct (rstrip_spec (lstrip s)) as (r & Er & Hr & Hlast & Hhead).
  exists l, r. rewrite El, Er at 1. repeat split; auto.
  intros c Hc. destruct Hhead as [E|E].
  - rewrite E in Hc. done.
  - apply Hh. by rewrite <- E.
Qed.

Lemma index_reference_row_lookup (idx : gmap string address_info)
    (ein : string) (info : address_info) :
  ein <> EmptyString -> has_address info ->
  index_reference_row idx ein info = <[ein_clean ein := info]> idx.
Proof.
  intros He Ha. unfold index_reference_row.
  destruct (String.eqb_spec ein EmptyString) as [|_]; [done|]. cbn [negb].
  assert (E : negb (String.eqb (address1 info) EmptyString)
              || negb (String.eqb (addr_city info) EmptyString)
              || negb (String.eqb (addr_state info) EmptyString)
              || negb (String.eqb (addr_zip info) EmptyString) = true).
  { rewrite !orb_true_iff, !negb_true_iff, !String.eqb_neq.
    unfold has_address in Ha. tauto. }
  by rewrite E.
Qed.

(** C10, as the code has it: no address is found for the empty EIN; any
    other EIN is looked up under the text between its surrounding white
    space with the hyphens left out, and no other character is left out.
    [12-3456789] and [123456789] have the same key and the same result,
    and a row indexed under an EIN is found under every EIN with the same
    key. *)
Theorem get_address_for_ein_key (idx : gmap string address_info) (ein : string) :
  get_address_for_ein idx EmptyString = None
  /\ (exists inner,
        trimmed ein inner
        /\ chars (ein_clean ein)
           = List.filter (fun a => negb (Ascii.eqb a "-")) (chars inner)
        /\ (ein <> EmptyString ->
            get_address_for_ein idx ein = idx !! ein_clean ein))
  /\ ein_clean "12-3456789" = ein_clean "123456789"
  /\ get_address_for_ein idx "12-3456789" = get_address_for_ein idx "123456789"
  /\ (forall ein' info,
        ein <> EmptyString -> ein' <> EmptyString -> has_address info ->
        ein_clean ein = ein_clean ein' ->
        get_address_for_ein (index_reference_row idx ein info) ein' = Some info).
Proof.
  split; [done|]. split; [|split; [done|split; [done|]]].
  - exists (strip ein). split; [apply strip_trimmed|].
    split; [apply remove_char_chars|].
    intros He. unfold get_address_for_ein.
    by destruct (String.eqb_spec ein EmptyString).
  - intros ein' info He He' Ha Hk.
    rewrite index_reference_row_lookup by done. unfold get_address_for_ein.
    destruct (String.eqb_spec ein' EmptyString); [done|].
    rewrite Hk. apply lookup_insert_eq.
Qed.

(** C10, as worded, fails: a dot is a separator that is neither a letter
    nor a digit, and the code keeps it, so the dotted EIN is looked up
    under a key of its own. *)
Lemma dotted_ein_keeps_its_dot :
  alnum_only "12.3456789" = alnum_only "123456789"
  /\ ein_clean "12.3456789" = "12.3456789"
  /\ get_address_for_ein (index_reference_row ∅ "123456789" acme) "123456789"
     = Some acme
  /\ get_address_for_ein (index_reference_row ∅ "123456789" acme) "12.3456789"
     = None.
Proof. vm_compute. repeat split. Qed.

(** ** The orchestrator *)


Lemma monitor_loop_subset (env : fs_env) (keep_files : Z)
    (e : string * file_body) (patterns : list string) (d : directory) (n : nat) :
  e ∈ (fold_left (monitor_step env keep_files) patterns (d, n)).1 -> e ∈ d.
Proof.
  revert d n. induction patterns as [|p patterns IH]; intros d n He; [done|].
  cbn [fold_left] in He. unfold monitor_step at 2 in He. cbn [fst snd] in He.
  destruct (delete_files env false _ d n) as [d' n'] eqn:E.
  apply IH in He. change d' with (d', n').1 in He. rewrite <- E in He.
  by apply delete_files_subset in He.
Qed.

Lemma monitor_cleanup_subset (env : fs_env) (keep_files : Z) (dir : directory)
    (e : string * file_body) :
  e ∈ (monitor_cleanup env keep_files dir).1 -> e ∈ dir.
Proof.
  rewrite monitor_cleanup_fold. destruct (keep_files <=? 0); [done|].
  apply monitor_loop_subset.
Qed.

Lemma monitor_cleanup_disabled (env : fs_env) (keep_files : Z) (dir : directory) :
  keep_files <= 0 -> monitor_cleanup env keep_files dir = (dir, O).
Proof.
  intros Hk. unfold monitor_cleanup.
  destruct (Z.leb_spec keep_files 0); [done|lia].
Qed.

(** C2: [save_baseline] with no record returns at once: the baseline file,
    there or not, is as it was, and so is what [load_baseline] reads. *)
Theorem save_baseline_empty (baseline_file : option string) :
  save_baseline [] baseline_file = baseline_file
  /\ load_baseline (save_baseline [] baseline_file) = load_baseline baseline_file.
Proof. split; reflexivity. Qed.

(** C8: when nothing is fetched, [run] returns the empty list having made
    no call to the differ, the writers or the mailer: the baseline file,
    the state file and the outbox are as they were, and the output
    directory holds no file that it did not hold before. *)
Theorem run_nothing_fetched (env : run_env) (send_email_notification : bool)
    (w : world) :
  fetch_all_records (fetch_page env) true = [] ->
  exists dir',
    run env send_email_notification w
    = (Returned [],
       {| baseline_file := baseline_file w; state_file := state_file w;
          output_dir := dir'; outbox := outbox w |},
       [])
    /\ (forall e, e ∈ dir' -> e ∈ output_dir w)
    /\ (keep_files env <= 0 -> dir' = output_dir w).
Proof.
  intros E. exists (monitor_cleanup (fs env) (keep_files env) (output_dir w)).1.
  split; [|split].
  - unfold run. by rewrite E.
  - intros e. apply monitor_cleanup_subset.
  - intros Hk. by rewrite monitor_cleanup_disabled.
Qed.

Lemma run_nothing_fetched_example :
  (run (run_env_of server_down) true world_before).1.2
  = {| baseline_file := baseline_file world_before;
       state_file := state_file world_before;
       output_dir := [("fetched_records_20240301_060000.csv", TextFile "a");
                      ("fetched_records_20240229_060000.csv", TextFile "b")];
       outbox := [] |}.
Proof.
  assert (E : fetch_all_records (fetch_page (run_env_of server_down)) true = [])
    by reflexivity.
  destruct (run_nothing_fetched (run_env_of server_down) true world_before E)
    as (dir' & Hrun & _ & _).
  rewrite Hrun. cbn [fst snd]. f_equal.
  apply (f_equal (fun x => output_dir x.1.2)) in Hrun. cbn [fst snd output_dir] in Hrun.
  rewrite <- Hrun. vm_compute. reflexivity.
Defined.

(** *** The order of the records *)





(** ** The fetcher *)

(** *** The rows of a page *)

Lemma add_rows_cons (r : record) (rows all : list record) (seen : gset pyval) :
  add_rows (r :: rows) all seen
  = match row_key r with
    | None => add_rows rows all seen
    | Some k =>
        if decide (k ∈ seen) then add_rows rows all seen
        else add_rows rows (all ++ [r]) ({[k]} ∪ seen)
    end.
Proof.
  unfold add_rows, row_key. cbn [fold_left].
  destruct (row_id r) as [v|]; cbn [fmap option_fmap option_map]; [|done].
  by destruct (decide (py_key v ∈ seen));
    [rewrite bool_decide_eq_true_2|rewrite bool_decide_eq_false_2].
Qed.

Lemma add_rows_app (rows1 rows2 all : list record) (seen : gset pyval) :
  add_rows (rows1 ++ rows2) all seen
  = add_rows rows2 (add_rows rows1 all seen).1 (add_rows rows1 all seen).2.
Proof.
  unfold add_rows. rewrite fold_left_app.
  by destruct (fold_left _ rows1 (all, seen)).
Qed.

Lemma keys_cons (r : record) (rows : list record) :
  keys (r :: rows)
  = match row_key r with Some k => k :: keys rows | None => keys rows end.
Proof. done. Qed.

Lemma keys_snoc (rows : list record) (r : record) (k : pyval) :
  row_key r = Some k -> keys (rows ++ [r]) = keys rows ++ [k].
Proof. intros E. unfold keys. rewrite omap_app. cbn. by rewrite E. Qed.

(** The rows the loop keeps are those whose identifier is neither seen
    before the page nor carried by an earlier row of the page. *)
Lemma add_rows_spec (rows all : list record) (seen : gset pyval) :
  (forall k, k ∈ seen <-> k ∈ keys all) ->
  NoDup (keys all) ->
  exists new,
    (add_rows rows all seen).1 = all ++ new
    /\ sublist new rows
    /\ NoDup (keys (all ++ new))
    /\ (forall k, k ∈ (add_rows rows all seen).2 <-> k ∈ keys (all ++ new))
    /\ (forall r, r ∈ new <->
          exists pre post k,
            rows = pre ++ r :: post /\ row_key r = Some k
            /\ (k ∉ seen) /\ (k ∉ keys pre)).
Proof.
  revert all seen. induction rows as [|r rows IH]; intros all seen Hseen Hnd.
  - exists []. rewrite app_nil_r. split_and!; try done.
    intros r. split; [by intros ?%elem_of_nil|].
    intros (pre & post & k & E & _). by destruct pre.
  - rewrite add_rows_cons. destruct (row_key r) as [k|] eqn:Ek.
    + destruct (decide (k ∈ seen)) as [Hk|Hk].
      * destruct (IH all seen Hseen Hnd) as (new & E1 & E2 & E3 & E4 & E5).
        exists new. split_and!; try done; [by apply sublist_cons|].
        intros r'. rewrite E5. split.
        -- intros (pre & post & k' & -> & Ek' & Hk1 & Hk2).
           exists (r :: pre), post, k'. split_and!; try done.
           rewrite keys_cons, Ek. apply not_elem_of_cons. split; [|done].
           by intros ->.
        -- intros (pre & post & k' & E & Ek' & Hk1 & Hk2).
           destruct pre as [|r0 pre]; cbn [app] in E; simplify_eq; try done.
           exists pre, post, k'. split_and!; try done.
           rewrite keys_cons, Ek in Hk2. by apply not_elem_of_cons in Hk2 as [_ ?].
      * destruct (IH (all ++ [r]) ({[k]} ∪ seen)) as (new & E1 & E2 & E3 & E4 & E5).
        { intros k'. rewrite (keys_snoc all r k Ek), elem_of_app, elem_of_union,
            elem_of_singleton, list_elem_of_singleton, <- Hseen. tauto. }
        { rewrite (keys_snoc all r k Ek). apply NoDup_app. split_and!; try done.
          - intros k' Hk' ->%list_elem_of_singleton. by apply Hk, Hseen.
          - apply NoDup_singleton. }
        exists (r :: new). rewrite <- app_assoc in E1, E3, E4. cbn [app] in E1, E3, E4.
        split_and!; try done; [by apply sublist_skip|].
        intros r'. rewrite elem_of_cons, E5. split.
        -- intros [->|(pre & post & k' & -> & Ek' & Hk1 & Hk2)].
           ++ exists [], rows, k. split_and!; try done. apply not_elem_of_nil.
           ++ exists (r :: pre), post, k'. split_and!; try done; [set_solver|].
              rewrite keys_cons, Ek. apply not_elem_of_cons. split; [|done].
              set_solver.
        -- intros (pre & post & k' & E & Ek' & Hk1 & Hk2).
           destruct pre as [|r0 pre]; cbn [app] in E; simplify_eq; [by left|]. right.
           exists pre, post, k'. rewrite keys_cons, Ek in Hk2.
           apply not_elem_of_cons in Hk2 as [? ?]. split_and!; try done.
           set_solver.
    + destruct (IH all seen Hseen Hnd) as (new & E1 & E2 & E3 & E4 & E5).
      exists new. split_and!; try done; [by apply sublist_cons|].
      intros r'. rewrite E5. split.
      * intros (pre & post & k' & -> & Ek' & Hk1 & Hk2).
        exists (r :: pre), post, k'. split_and!; try done.
        by rewrite keys_cons, Ek.
      * intros (pre & post & k' & E & Ek' & Hk1 & Hk2).
        destruct pre as [|r0 pre]; cbn [app] in E; simplify_eq; try done.
        exists pre, post, k'. split_and!; try done.
        by rewrite keys_cons, Ek in Hk2.
Qed.

(** *** One turn of the loop *)

Lemma fetch_iter_requests (fetch_page : Z -> option page) (full_scan : bool)
    (s s' : fetch_state) :
  fetch_iter fetch_page full_scan s = Continue s'
  \/ fetch_iter fetch_page full_scan s = Break s' ->
  requests s' = requests s ++ [(offset s, length (all_records s))].
Proof.
  unfold fetch_iter. destruct (fetch_page (offset s)) as [data|].
  - destruct (default [] (page_rows data)) as [|r rows].
    + intros [?|?]; by simplify_eq/=.
    + destruct (add_rows _ _ _) as [all seen].
      repeat (match goal with |- context [if ?b then _ else _] => destruct b end);
        intros [?|?]; by simplify_eq/=.
  - intros [?|?]; by simplify_eq/=.
Qed.

Lemma fetch_iter_Continue (fetch_page : Z -> option page) (full_scan : bool)
    (s s' : fetch_state) :
  fetch_iter fetch_page full_scan s = Continue s' ->
  page_processed fetch_page s s'
  /\ (full_scan = false -> (length (all_records s') < 1000)%nat)
  /\ (exists t, total_records s' = Some t /\ offset s' < t).
Proof.
  unfold fetch_iter, page_processed.
  destruct (fetch_page (offset s)) as [data|] eqn:Ed; [|done].
  destruct (page_rows data) as [[|r rows]|] eqn:Er; cbn [default from_option id];
    [done| |done].
  destruct (add_rows _ _ _) as [all seen] eqn:Ea.
  destruct (negb full_scan && (1000 <=? length all)%nat) eqn:Eb; [done|].
  match goal with |- context [if ?b then _ else _] => destruct b eqn:Et end; [done|].
  intros [= <-]. cbn [all_records offset total_records seen_ids pages] in *.
  split_and!.
  - exists data, (r :: rows). by split_and!.
  - intros ->. cbn [negb andb] in Eb. apply Nat.leb_gt in Eb. lia.
  - eexists. split; [done|]. apply Z.leb_gt in Et. unfold total_after. lia.
Qed.

Lemma fetch_iter_Break (fetch_page : Z -> option page) (full_scan : bool)
    (s s' : fetch_state) :
  fetch_iter fetch_page full_scan s = Break s' ->
  nothing_processed s s' \/ page_processed fetch_page s s'.
Proof.
  unfold fetch_iter, page_processed, nothing_processed.
  destruct (fetch_page (offset s)) as [data|] eqn:Ed;
    [|intros [= <-]; by left].
  destruct (page_rows data) as [[|r rows]|] eqn:Er; cbn [default from_option id];
    [intros [= <-]; by left| |intros [= <-]; by left].
  destruct (add_rows _ _ _) as [all seen] eqn:Ea.
  repeat (match goal with |- context [if ?b then _ else _] => destruct b end);
    intros [= <-]; right; exists data, (r :: rows); by split_and!.
Qed.

(** *** The loop *)

Lemma fetch_loop_invariant (fetch_page : Z -> option page) (full_scan : bool)
    (P Q : fetch_state -> Prop) :
  (forall s s', P s -> fetch_iter fetch_page full_scan s = Continue s' -> P s') ->
  (forall s s', P s -> fetch_iter fetch_page full_scan s = Break s' -> Q s') ->
  forall fuel s s',
    P s -> fetch_loop fetch_page full_scan fuel s = Some s' -> Q s'.
Proof.
  intros Hcont Hbreak fuel. induction fuel as [|fuel IH]; intros s s' Hs; [done|].
  cbn [fetch_loop]. destruct (fetch_iter fetch_page full_scan s) as [s1|s1] eqn:E.
  - apply IH. by eapply Hcont.
  - intros [= <-]. by eapply Hbreak.
Qed.

Lemma fetch_loop_enough_fuel (fetch_page : Z -> option page) (full_scan : bool)
    (fuel : nat) (s : fetch_state) (t : Z) :
  total_records s = Some t ->
  (0 < fuel)%nat ->
  t - offset s <= RECORDS_PER_PAGE * Z.of_nat fuel ->
  is_Some (fetch_loop fetch_page full_scan fuel s).
Proof.
  revert s. induction fuel as [|fuel IH]; intros s Ht Hpos Hfuel; [lia|].
  cbn [fetch_loop]. destruct (fetch_iter fetch_page full_scan s) as [s1|s1] eqn:E;
    [|eauto].
  apply fetch_iter_Continue in E as ((data & rows & _ & _ & _ & _ & _ & Eo & Et) & _
                                     & (t' & Et' & Hlt)).
  unfold total_after in Et. rewrite Ht in Et. rewrite Et in Et'. simplify_eq.
  unfold RECORDS_PER_PAGE in *. apply IH; [done|lia|lia].
Qed.

(** The loop ends within the turns [fetch_fuel] allows. *)
Lemma fetch_loop_terminates (fetch_page : Z -> option page) (full_scan : bool) :
  is_Some (fetch_loop fetch_page full_scan (fetch_fuel fetch_page) fetch_init).
Proof.
  unfold fetch_fuel.
  destruct (fetch_page 0) as [data0|] eqn:E0.
  - cbn [fetch_loop].
    destruct (fetch_iter fetch_page full_scan fetch_init) as [s1|s1] eqn:E; [|eauto].
    apply fetch_iter_Continue in E as ((data & rows & Ed & _ & _ & _ & _ & Eo & Et) & _
                                       & (t' & Et' & Hlt)).
    cbn in Ed, Eo, Et. rewrite E0 in Ed. simplify_eq.
    unfold RECORDS_PER_PAGE in *.
    pose proof (Z.div_mod (default 0 (page_total data)) 100 ltac:(lia)).
    pose proof (Z.mod_pos_bound (default 0 (page_total data)) 100 ltac:(lia)).
    eapply fetch_loop_enough_fuel; [done|lia|unfold RECORDS_PER_PAGE; lia].
  - cbn [fetch_loop]. unfold fetch_iter. cbn. rewrite E0. eauto.
Qed.

Lemma fetch_run_loop (fetch_page : Z -> option page) (full_scan : bool) :
  fetch_loop fetch_page full_scan (fetch_fuel fetch_page) fetch_init
  = Some (fetch_run fetch_page full_scan).
Proof.
  unfold fetch_run.
  by destruct (fetch_loop_terminates fetch_page full_scan) as [s ->].
Qed.

Lemma fetch_inv_init (fetch_page : Z -> option page) : fetch_inv fetch_page fetch_init.
Proof. split_and!; try done. Qed.

Lemma fetch_inv_page (fetch_page : Z -> option page) (s s' : fetch_state) :
  fetch_inv fetch_page s -> page_processed fetch_page s s' ->
  fetch_inv fetch_page s'.
Proof.
  intros (Ha & Ho & Hp) (data & rows & Ed & Er & _ & Ea & Ep & Eo & _).
  split_and!.
  - rewrite Ep, concat_app, add_rows_app, Ha. cbn [concat fst snd].
    by rewrite app_nil_r.
  - rewrite Eo, Ep, length_app, Ho. cbn [length]. unfold RECORDS_PER_PAGE. lia.
  - intros i rows' Hi. rewrite Ep in Hi.
    apply lookup_app_Some in Hi as [Hi|[Hlen Hi]]; [by apply Hp|].
    apply list_lookup_singleton_Some in Hi as [Hz <-].
    exists data. split; [|done]. rewrite <- Ed, Ho. f_equal. f_equal. lia.
Qed.

Lemma fetch_inv_nothing (fetch_page : Z -> option page) (s s' : fetch_state) :
  fetch_inv fetch_page s -> nothing_processed s s' -> fetch_inv fetch_page s'.
Proof.
  intros (Ha & Ho & Hp) (E1 & E2 & E3 & E4). unfold fetch_inv.
  by rewrite E1, E2, E3, E4.
Qed.

Lemma fetch_run_inv (fetch_page : Z -> option page) (full_scan : bool) :
  fetch_inv fetch_page (fetch_run fetch_page full_scan).
Proof.
  eapply (fetch_loop_invariant fetch_page full_scan
            (fetch_inv fetch_page) (fetch_inv fetch_page));
    [| |apply fetch_inv_init|apply fetch_run_loop].
  - intros s s' Hs E. apply fetch_iter_Continue in E as [Hp _].
    by eapply fetch_inv_page.
  - intros s s' Hs E. apply fetch_iter_Break in E as [Hn|Hp].
    + by eapply fetch_inv_nothing.
    + by eapply fetch_inv_page.
Qed.


(** First seen wins: the loop ends, and in the list it returns every row has an
    identifier and no two rows have the same one; the rows are rows of the
    pages processed, in their order, and a row of these pages is returned
    when it has an identifier that no row before it has: the first row
    seen with an identifier is kept, a later one dropped. *)
Theorem fetch_all_records_first_seen (fetch_page : Z -> option page)
    (full_scan : bool) :
  let s := fetch_run fetch_page full_scan in
  fetch_loop fetch_page full_scan (fetch_fuel fetch_page) fetch_init = Some s
  /\ Forall (fun r => is_Some (row_key r)) (fetch_all_records fetch_page full_scan)
  /\ NoDup (map row_key (fetch_all_records fetch_page full_scan))
  /\ sublist (fetch_all_records fetch_page full_scan) (concat (pages s))
  /\ (forall r,
        r ∈ fetch_all_records fetch_page full_scan <->
        exists pre post k,
          concat (pages s) = pre ++ r :: post
          /\ row_key r = Some k /\ (k ∉ keys pre))
  /\ (forall (i : nat) rows,
        pages s !! i = Some rows ->
        exists data,
          fetch_page (RECORDS_PER_PAGE * Z.of_nat i) = Some data
          /\ page_rows data = Some rows).
Proof.
  intros s. destruct (fetch_run_inv fetch_page full_scan) as (Ha & _ & Hp).
  fold s in Ha, Hp. unfold fetch_all_records. fold s.
  destruct (add_rows_spec (concat (pages s)) [] ∅) as (new & E1 & E2 & E3 & _ & E5);
    [set_solver|constructor|].
  rewrite Ha in E1. cbn [fst app] in E1, E3. subst new.
  assert (Hkeys : Forall (fun r => is_Some (row_key r)) (all_records s)).
  { apply Forall_forall. intros r Hr. apply E5 in Hr as (_ & _ & k & _ & Ek & _).
    eauto. }
  assert (Hmap : map row_key (all_records s) = map Some (keys (all_records s))).
  { clear -Hkeys. induction Hkeys as [|r l [k Ek] _ IH]; [done|].
    cbn [map]. rewrite keys_cons, Ek. cbn [map]. by rewrite IH. }
  split_and!; try done.
  - apply fetch_run_loop.
  - rewrite Hmap. apply (NoDup_fmap_2 Some), E3.
  - intros r. rewrite E5. split.
    + intros (pre & post & k & ? & ? & _ & ?). by exists pre, post, k.
    + intros (pre & post & k & ? & ? & ?). exists pre, post, k.
      split_and!; try done; set_solver.
Qed.

(** *** The budget of an incremental run *)

(** The budget: in incremental mode the loop ends, every page request it issued
    was issued with fewer than 1000 records accumulated, and a turn after
    which 1000 records or more are accumulated is the last one. *)
Theorem fetch_budget (fetch_page : Z -> option page) :
  let s := fetch_run fetch_page false in
  fetch_loop fetch_page false (fetch_fuel fetch_page) fetch_init = Some s
  /\ Forall below_budget (requests s)
  /\ (forall s0 s1,
        fetch_iter fetch_page false s0 = Continue s1 ->
        (length (all_records s1) < 1000)%nat)
  /\ (forall s0 s1,
        fetch_iter fetch_page false s0 = Continue s1
        \/ fetch_iter fetch_page false s0 = Break s1 ->
        requests s1 = requests s0 ++ [(offset s0, length (all_records s0))]).
Proof.
  intros s. split_and!.
  - apply fetch_run_loop.
  - refine (fetch_loop_invariant fetch_page false
              (fun s => Forall below_budget (requests s)
                        /\ (length (all_records s) < 1000)%nat)
              (fun s => Forall below_budget (requests s))
              _ _ (fetch_fuel fetch_page) fetch_init s _ (fetch_run_loop _ _)).
    + intros s0 s1 [Hr Hl] E. split.
      * rewrite (fetch_iter_requests _ _ _ _ (or_introl E)).
        apply Forall_app. split; [done|]. constructor; [exact Hl|constructor].
      * apply fetch_iter_Continue in E as (_ & Hb & _). by apply Hb.
    + intros s0 s1 [Hr Hl] E.
      rewrite (fetch_iter_requests _ _ _ _ (or_intror E)).
      apply Forall_app. split; [done|]. constructor; [exact Hl|constructor].
    + split; [constructor|]. cbn [fetch_init all_records length]. lia.
  - intros s0 s1 E. apply fetch_iter_Continue in E as (_ & Hb & _). by apply Hb.
  - apply fetch_iter_requests.
Qed.

(** ** Retention: refusals, counts and repeated passes *)

(** *** The pass without its early return *)

Lemma cleanup_old_files_unfold (env : fs_env) (keep_count : Z) (dir : directory)
    (pattern : string) (dry_run : bool) :
  let ranked := get_timestamped_files env (Some dir) pattern in
  let old := slice_from keep_count ranked in
  cleanup_old_files env keep_count (Some dir) pattern dry_run
  = (Some (delete_files env dry_run old dir O).1,
     (length (slice_to keep_count ranked),
      if dry_run then length old else (delete_files env dry_run old dir O).2)).
Proof.
  intros ranked old. unfold cleanup_old_files. fold ranked.
  destruct ranked as [|x ranked'] eqn:E.
  - subst old. unfold slice_to, slice_from. rewrite firstn_nil, skipn_nil.
    by destruct dry_run.
  - change (default [] (Some dir)) with dir. fold old.
    by destruct (delete_files env dry_run old dir 0).
Qed.

Lemma delete_files_shift (env : fs_env) (dry_run : bool)
    (files : list (string * datetime)) (dir : directory) (count : nat) :
  delete_files env dry_run files dir count
  = ((delete_files env dry_run files dir O).1,
     (count + (delete_files env dry_run files dir O).2)%nat).
Proof.
  revert dir count. induction files as [|[f t] files IH]; intros dir count.
  - cbn. f_equal. lia.
  - rewrite !delete_files_cons. destruct dry_run; [apply IH|].
    destruct (unlink env dir f) as [d'|]; [|apply IH].
    rewrite (IH d' (S count)), (IH d' 1%nat). cbn [fst snd]. f_equal. lia.
Qed.

(** *** Deletions the system refuses *)

Lemma delete_files_refusals (env : fs_env) (files : list (string * datetime))
    (dir : directory) (count : nat) :
  NoDup (map fst files) ->
  (forall n, n ∈ map fst files -> n ∈ file_names dir) ->
  delete_files env false files dir count
  = (without (deletable env (map fst files)) dir,
     (count + length (deletable env (map fst files)))%nat).
Proof.
  unfold deletable.
  revert dir count. induction files as [|[f t] files IH]; intros dir count Hnd Hin.
  - cbn. rewrite without_nil. f_equal. lia.
  - rewrite delete_files_cons. cbn [map fst] in *.
    apply NoDup_cons in Hnd as [Hf Hnd]. cbn [List.filter]. unfold unlink.
    rewrite (bool_decide_eq_true_2 (f ∈ file_names dir)) by (apply Hin; by left).
    destruct (unlink_ok env f); cbn [andb].
    + rewrite IH; [|done|].
      * rewrite unlink_filter_without. cbn [length]. f_equal. lia.
      * intros n Hn. apply file_names_unlinked. split; [apply Hin; by right|].
        by intros ->.
    + apply IH; [done|]. intros n Hn. apply Hin. by right.
Qed.

Lemma slice_facts (env : fs_env) (k : Z) (dir : directory) (pattern : string) :
  NoDup (file_names dir) ->
  let ranked := get_timestamped_files env (Some dir) pattern in
  NoDup (map fst (slice_from k ranked))
  /\ (forall n, n ∈ map fst (slice_from k ranked) -> n ∈ file_names dir).
Proof.
  intros Hnd ranked.
  destruct (old_files_facts env (slice_bound k (length ranked)) dir pattern Hnd)
    as (H1 & H2 & _).
  by split.
Qed.

Lemma length_without (names : list string) (dir : directory) :
  NoDup (file_names dir) -> NoDup names ->
  (forall n, n ∈ names -> n ∈ file_names dir) ->
  (length (without names dir) + length names = length dir)%nat.
Proof.
  intros Hd Hn Hsub.
  assert (E : Permutation names
                (List.filter (fun n => bool_decide (n ∈ names)) (file_names dir))).
  { apply NoDup_Permutation; [done| |].
    - apply NoDup_ListNoDup, List.NoDup_filter. by apply NoDup_ListNoDup.
    - intros n. split; intros H.
      + apply list_elem_of_In, filter_In. split.
        * by apply list_elem_of_In, Hsub.
        * by apply bool_decide_eq_true.
      + apply list_elem_of_In, filter_In in H as [_ H].
        by apply bool_decide_eq_true in H. }
  rewrite E at 2. unfold without, file_names. clear. induction dir as [|e dir IH].
  - done.
  - cbn [List.filter map]. destruct (decide (e.1 ∈ names)).
    + rewrite (bool_decide_eq_false_2 (e.1 ∉ names)) by tauto.
      rewrite (bool_decide_eq_true_2 (e.1 ∈ names)) by done. cbn [length]. lia.
    + rewrite (bool_decide_eq_true_2 (e.1 ∉ names)) by done.
      rewrite (bool_decide_eq_false_2 (e.1 ∈ names)) by done. cbn [length]. lia.
Qed.

(** A live pass deletes, among the files ranked after the ones it keeps,
    those the system lets it delete, and no other file; the second count
    it returns is the number of files it deleted, whatever was refused. *)
Theorem cleanup_counts_deletions (env : fs_env) (keep_count : Z) (dir : directory)
    (pattern : string) :
  NoDup (file_names dir) ->
  let ranked := get_timestamped_files env (Some dir) pattern in
  let gone := deletable env (map fst (slice_from keep_count ranked)) in
  cleanup_old_files env keep_count (Some dir) pattern false
  = (Some (without gone dir), (length (slice_to keep_count ranked), length gone))
  /\ (forall e, e ∈ without gone dir <-> e ∈ dir /\ (e.1 ∉ gone))
  /\ (length (without gone dir) + length gone = length dir)%nat.
Proof.
  intros Hnd ranked gone.
  destruct (slice_facts env keep_count dir pattern Hnd) as [Hold Hin].
  fold ranked in Hold, Hin. split_and!.
  - rewrite cleanup_old_files_unfold. fold ranked.
    by rewrite delete_files_refusals.
  - intros e. apply elem_of_without.
  - apply length_without; [done| |].
    + apply NoDup_ListNoDup, List.NoDup_filter. by apply NoDup_ListNoDup.
    + intros n Hn. apply Hin. unfold gone, deletable in Hn.
      apply list_elem_of_In, filter_In in Hn as [Hn _]. by apply list_elem_of_In.
Qed.

Lemma cleanup_counts_deletions_example :
  cleanup_old_files (locked_fs ["fetched_records_20240101_000000.csv"]) 2
    (Some four_snapshots) "fetched_records_*.csv" false
  = (Some [("fetched_records_20240101_000000.csv", TextFile "a");
           ("fetched_records_20240301_120000.csv", TextFile "b");
           ("notes.txt", TextFile "c");
           ("fetched_records_20240201_093000.csv", TextFile "d")],
     (2%nat, 1%nat)).
Proof.
  assert (Hnd : NoDup (file_names four_snapshots)).
  { apply NoDup_ListNoDup. repeat constructor; simpl; intuition discriminate. }
  destruct (cleanup_counts_deletions
              (locked_fs ["fetched_records_20240101_000000.csv"]) 2
              four_snapshots "fetched_records_*.csv" Hnd) as (E & _ & _).
  rewrite E. vm_compute. reflexivity.
Defined.

(** *** The pass at the end of a run and the pass of the script *)

Lemma cleanup_all_fold (env : fs_env) (keep_count : Z)
    (output_dir : option directory) (dry_run : bool) :
  cleanup_all env keep_count output_dir dry_run
  = fold_left (cleanup_all_step env keep_count dry_run) snapshot_patterns
      (output_dir, []).
Proof.
  unfold cleanup_all. generalize (output_dir, @nil (nat * nat)).
  generalize snapshot_patterns.
  intros patterns. induction patterns as [|p patterns IH]; intros acc; [done|].
  cbn [fold_left]. rewrite <- IH. by destruct acc.
Qed.

Lemma cleanup_all_step_live (env : fs_env) (keep_count : Z) (d : directory)
    (results : list (nat * nat)) (pattern : string) (n : nat) :
  exists kept,
    cleanup_all_step env keep_count false (Some d, results) pattern
    = (Some (monitor_step env keep_count (d, n) pattern).1,
       results ++ [(kept, ((monitor_step env keep_count (d, n) pattern).2 - n)%nat)]).
Proof.
  unfold cleanup_all_step, monitor_step. cbn [fst snd].
  rewrite cleanup_old_files_unfold. eexists. unfold get_timestamped_files.
  rewrite (delete_files_shift env false _ d n). cbn [fst snd].
  repeat f_equal. lia.
Qed.

Lemma list_sum_snoc (l : list nat) (x : nat) :
  list_sum (l ++ [x]) = (list_sum l + x)%nat.
Proof. rewrite list_sum_app. cbn. lia. Qed.

Lemma monitor_step_count (env : fs_env) (keep_files : Z) (d : directory)
    (n : nat) (pattern : string) :
  (n <= (monitor_step env keep_files (d, n) pattern).2)%nat.
Proof.
  unfold monitor_step. cbn [fst snd]. rewrite delete_files_shift. cbn [snd]. lia.
Qed.

Lemma cleanup_loops_agree (env : fs_env) (keep_count : Z) (patterns : list string)
    (d : directory) (results : list (nat * nat)) (n : nat) :
  list_sum (map snd results) = n ->
  (fold_left (cleanup_all_step env keep_count false) patterns (Some d, results)).1
  = Some (fold_left (monitor_step env keep_count) patterns (d, n)).1
  /\ list_sum (map snd
       (fold_left (cleanup_all_step env keep_count false) patterns
          (Some d, results)).2)
     = (fold_left (monitor_step env keep_count) patterns (d, n)).2.
Proof.
  revert d results n. induction patterns as [|p patterns IH]; intros d results n Hn.
  - done.
  - cbn [fold_left].
    destruct (cleanup_all_step_live env keep_count d results p n) as [kept ->].
    pose proof (monitor_step_count env keep_count d n p) as Hle.
    destruct (monitor_step env keep_count (d, n) p) as [d' n'] eqn:E.
    cbn [fst snd] in *. apply IH.
    rewrite map_app. cbn [map snd]. rewrite list_sum_snoc, Hn. lia.
Qed.

(** With a positive number of files to keep, the pass [run] ends with and
    a live [cleanup_all] of the script leave the same directory, and the
    total the former logs is the sum of the deletion counts of the latter.
    With zero or less the former does nothing, while the latter still
    deletes: with zero, every file it ranks that the system lets go. *)
Theorem monitor_cleanup_agrees (env : fs_env) (keep_count : Z) (dir : directory) :
  (0 < keep_count ->
   (cleanup_all env keep_count (Some dir) false).1
   = Some (monitor_cleanup env keep_count dir).1
   /\ list_sum (map snd (cleanup_all env keep_count (Some dir) false).2)
      = (monitor_cleanup env keep_count dir).2)
  /\ (keep_count <= 0 -> monitor_cleanup env keep_count dir = (dir, O))
  /\ (forall pattern,
        NoDup (file_names dir) ->
        (cleanup_old_files env 0 (Some dir) pattern false).1
        = Some (without
                  (deletable env
                     (map fst (get_timestamped_files env (Some dir) pattern)))
                  dir)).
Proof.
  split_and!.
  - intros Hk. rewrite cleanup_all_fold, monitor_cleanup_fold.
    destruct (Z.leb_spec keep_count 0); [lia|].
    by apply cleanup_loops_agree.
  - apply monitor_cleanup_disabled.
  - intros pattern Hnd.
    destruct (slice_facts env 0 dir pattern Hnd) as [Hold Hin].
    rewrite cleanup_old_files_unfold, delete_files_refusals by done.
    cbn [fst]. do 3 f_equal. by rewrite slice_from_nonneg.
Qed.

(** *** Sorting what is left *)

Section StableSortFilter.
Context {A K : Type} (key : A -> K) (before : K -> K -> bool).
Hypothesis before_total : forall a b, before a b = false -> before b a = true.
Hypothesis before_trans :
  forall a b c, before a b = true -> before b c = true -> before a c = true.

Lemma insert_stable_front (x : A) (l : list A) :
  Forall (in_order key before x) l -> insert_stable key before x l = x :: l.
Proof.
  intros Hl. destruct Hl as [|y l Hy _]; [done|]. cbn [insert_stable].
  unfold in_order in Hy. by rewrite Hy.
Qed.

Lemma insert_stable_filter (q : A -> bool) (x : A) (s : list A) :
  StronglySorted (in_order key before) s ->
  List.filter q (insert_stable key before x s)
  = if q x then insert_stable key before x (List.filter q s)
    else List.filter q s.
Proof.
  induction 1 as [|y s Hs IH Hy]; cbn [insert_stable List.filter].
  - by destruct (q x).
  - destruct (before (key x) (key y)) eqn:Exy; cbn [List.filter].
    + destruct (q x) eqn:Ex, (q y) eqn:Ey; try done.
      * cbn [insert_stable]. by rewrite Exy.
      * rewrite insert_stable_front; [done|].
        apply Forall_forall. intros z Hz.
        apply list_elem_of_In, filter_In in Hz as [Hz _].
        rewrite Forall_forall in Hy. apply list_elem_of_In, Hy in Hz.
        unfold in_order in *. eauto.
    + rewrite IH. destruct (q x) eqn:Ex, (q y) eqn:Ey; try done.
      cbn [insert_stable]. by rewrite Exy.
Qed.

Lemma sort_stable_filter (q : A -> bool) (l : list A) :
  List.filter q (sort_stable key before l)
  = sort_stable key before (List.filter q l).
Proof.
  induction l as [|x l IH]; [done|].
  change (sort_stable key before (x :: l))
    with (insert_stable key before x (sort_stable key before l)).
  rewrite insert_stable_filter by by apply sort_stable_sorted.
  cbn [List.filter]. destruct (q x); [|done].
  change (sort_stable key before (x :: List.filter q l))
    with (insert_stable key before x (sort_stable key before (List.filter q l))).
  by rewrite IH.
Qed.
End StableSortFilter.

Lemma filter_none {A : Type} (q : A -> bool) (l : list A) :
  (forall x, x ∈ l -> q x = false) -> List.filter q l = [].
Proof.
  induction l as [|x l IH]; intros H; [done|]. cbn [List.filter].
  rewrite (H x) by by left. apply IH. intros y Hy. apply H. by right.
Qed.

Lemma filter_all {A : Type} (q : A -> bool) (l : list A) :
  (forall x, x ∈ l -> q x = true) -> List.filter q l = l.
Proof.
  intros H. apply forallb_filter_id, forallb_forall.
  intros x Hx. by apply H, list_elem_of_In.
Qed.

Lemma omap_stamped_filter (q : string -> bool) (names : list string) :
  omap stamped (List.filter q names)
  = List.filter (fun e => q e.1) (omap stamped names).
Proof.
  induction names as [|n names IH]; [done|].
  assert (Hn : forall e, stamped n = Some e -> e.1 = n).
  { intros e. unfold stamped. destruct (file_timestamp n); by intros [= <-]. }
  cbn [List.filter]. destruct (q n) eqn:Eq; cbn [omap list_omap];
    destruct (stamped n) as [e|] eqn:Es; rewrite IH; try done.
  all: cbn [List.filter]; by rewrite (Hn e eq_refl), Eq.
Qed.

(** The files a pass ranks once files have been removed: those it ranked
    before, the removed ones left out, in the same order. *)
Lemma ranked_after_removal (env : fs_env) (gone : list string) (dir : directory)
    (pattern : string) :
  get_timestamped_files env (Some (without gone dir)) pattern
  = List.filter (fun e => bool_decide (e.1 ∉ gone))
      (get_timestamped_files env (Some dir) pattern).
Proof.
  rewrite !ranked_eq. unfold newest_first.
  rewrite (sort_stable_filter snd (fun a b => datetime_leb b a)).
  - f_equal. unfold glob.
    rewrite file_names_without_filter, filter_comm.
    apply (omap_stamped_filter (fun n => bool_decide (n ∉ gone))).
  - intros a b. apply datetime_leb_total.
  - intros a b c H1 H2. by apply (datetime_leb_trans c b a).
Qed.

Lemma delete_files_all_refused (env : fs_env) (files : list (string * datetime))
    (dir : directory) (count : nat) :
  (forall n, n ∈ map fst files -> unlink_ok env n = false) ->
  delete_files env false files dir count = (dir, count).
Proof.
  revert dir count. induction files as [|[f t] files IH]; intros dir count H.
  - done.
  - rewrite delete_files_cons. unfold unlink.
    rewrite (H f) by by left. cbn [andb]. apply IH.
    intros n Hn. apply H. by right.
Qed.

(** What a pass ranks after a first live pass: the files that pass kept,
    then the files it was refused. *)
Lemma ranked_after_pass (env : fs_env) (k : nat) (dir : directory)
    (pattern : string) :
  NoDup (file_names dir) ->
  let ranked := get_timestamped_files env (Some dir) pattern in
  let gone := deletable env (map fst (skipn k ranked)) in
  List.filter (fun e => bool_decide (e.1 ∉ gone)) ranked
  = firstn k ranked
    ++ List.filter (fun e => negb (unlink_ok env e.1)) (skipn k ranked).
Proof.
  intros Hnd ranked gone.
  destruct (old_files_facts env k dir pattern Hnd) as (Hold & _ & Hkept).
  fold ranked in Hold, Hkept.
  rewrite <- (firstn_skipn k ranked) at 1. rewrite List.filter_app. f_equal.
  - apply filter_all. intros e He. apply bool_decide_eq_true. intros Hg.
    apply (Hkept e.1); [by apply list_elem_of_fmap_2|].
    unfold gone, deletable in Hg.
    apply list_elem_of_In, filter_In in Hg as [Hg _]. by apply list_elem_of_In.
  - clear Hkept. unfold gone, deletable.
    induction (skipn k ranked) as [|e old IH]; [done|].
    cbn [map] in Hold. apply NoDup_cons in Hold as [He Hold].
    cbn [List.filter map]. destruct (unlink_ok env e.1) eqn:Eok; cbn [negb].
    + rewrite bool_decide_eq_false_2 by (intros H; apply H; by left).
      rewrite <- (IH Hold). apply filter_ext_in. intros e' He'.
      apply bool_decide_ext. rewrite not_elem_of_cons.
      split; [tauto|]. intros H. split; [|done]. intros E. apply He.
      rewrite <- E. apply list_elem_of_fmap_2. by apply list_elem_of_In.
    + rewrite bool_decide_eq_true_2.
      * by rewrite (IH Hold).
      * intros Hin. apply list_elem_of_In, filter_In in Hin as [_ Hin]. congruence.
Qed.

(** A second live pass deletes nothing: after a live pass that keeps a
    number of files that is not negative, a second pass on the directory
    it left, refused the same deletions, leaves that directory as it is and
    returns the same number of kept files and zero deleted. *)
Theorem cleanup_twice (env : fs_env) (keep_count : Z) (dir : directory)
    (pattern : string) :
  0 <= keep_count ->
  NoDup (file_names dir) ->
  exists dir' kept deleted,
    cleanup_old_files env keep_count (Some dir) pattern false
    = (Some dir', (kept, deleted))
    /\ cleanup_old_files env keep_count (Some dir') pattern false
       = (Some dir', (kept, O)).
Proof.
  intros Hk Hnd.
  set (ranked := get_timestamped_files env (Some dir) pattern).
  set (k := Z.to_nat keep_count).
  set (gone := deletable env (map fst (skipn k ranked))).
  destruct (old_files_facts env k dir pattern Hnd) as (Hold & Hin & _).
  fold ranked in Hold, Hin.
  exists (without gone dir), (length (firstn k ranked)), (length gone).
  split.
  - rewrite cleanup_old_files_unfold. fold ranked.
    rewrite slice_to_nonneg, slice_from_nonneg by done. fold k.
    by rewrite delete_files_refusals.
  - rewrite cleanup_old_files_unfold, ranked_after_removal. fold ranked.
    rewrite slice_to_nonneg, slice_from_nonneg by done. fold k.
    pose proof (ranked_after_pass env k dir pattern Hnd) as Hr. cbv zeta in Hr.
    fold ranked in Hr. fold gone in Hr. rewrite Hr.
    set (refused := List.filter (fun e => negb (unlink_ok env e.1)) (skipn k ranked)).
    assert (Hcase : length (firstn k ranked) = k \/ refused = []).
    { destruct (Nat.le_gt_cases k (length ranked)) as [Hle|Hgt].
      - left. rewrite length_firstn. lia.
      - right. unfold refused. rewrite skipn_all2 by lia. done. }
    assert (Hto : firstn k (firstn k ranked ++ refused) = firstn k ranked).
    { rewrite firstn_app, firstn_firstn, Nat.min_id.
      destruct Hcase as [-> | ->]; [rewrite Nat.sub_diag|]; cbn;
        by rewrite ?firstn_nil, app_nil_r. }
    assert (Hfrom : skipn k (firstn k ranked ++ refused) = refused).
    { rewrite skipn_app. rewrite (skipn_all2 (firstn k ranked))
        by apply firstn_le_length.
      destruct Hcase as [-> | ->]; [rewrite Nat.sub_diag|]; cbn;
        by rewrite ?skipn_nil. }
    rewrite Hto, Hfrom. rewrite delete_files_all_refused; [done|].
    intros n Hn. apply list_elem_of_fmap in Hn as (e & -> & He).
    apply list_elem_of_In, filter_In in He as [_ He]. by apply negb_true_iff.
Qed.

Lemma cleanup_twice_example :
  exists dir' kept deleted,
    cleanup_old_files (locked_fs ["fetched_records_20240101_000000.csv"]) 2
      (Some four_snapshots) "fetched_records_*.csv" false
    = (Some dir', (kept, deleted))
    /\ cleanup_old_files (locked_fs ["fetched_records_20240101_000000.csv"]) 2
         (Some dir') "fetched_records_*.csv" false
       = (Some dir', (kept, O)).
Proof.
  assert (H0 : 0 <= 2) by lia.
  assert (Hnd : NoDup (file_names four_snapshots)).
  { apply NoDup_ListNoDup. repeat constructor; simpl; intuition discriminate. }
  exact (cleanup_twice (locked_fs ["fetched_records_20240101_000000.csv"]) 2
           four_snapshots "fetched_records_*.csv" H0 Hnd).
Defined.

Lemma monitor_cleanup_agrees_example :
  (cleanup_all plain_fs 2 (Some four_snapshots) false).1
  = Some (monitor_cleanup plain_fs 2 four_snapshots).1
  /\ list_sum (map snd (cleanup_all plain_fs 2 (Some four_snapshots) false).2)
     = (monitor_cleanup plain_fs 2 four_snapshots).2.
Proof.
  assert (H0 : 0 < 2) by lia.
  exact (proj1 (monitor_cleanup_agrees plain_fs 2 four_snapshots) H0).
Defined.

(** ** The baseline file *)

(** *** Texts *)

Lemma string_app_cons (c : ascii) (s1 s2 : string) :
  String c s1 +:+ s2 = String c (s1 +:+ s2).
Proof. done. Qed.

Lemma string_app_nil_l (s : string) : EmptyString +:+ s = s.
Proof. done. Qed.

Lemma string_app_nil_r (s : string) : s +:+ EmptyString = s.
Proof. induction s as [|c s IH]; [done|]. by rewrite string_app_cons, IH. Qed.

Lemma string_app_assoc (s1 s2 s3 : string) :
  (s1 +:+ s2) +:+ s3 = s1 +:+ (s2 +:+ s3).
Proof. induction s1 as [|c s1 IH]; [done|]. by rewrite !string_app_cons, IH. Qed.

(** *** Reading in text mode *)


Lemma cr_after_snoc (b : bool) (s : string) (c : ascii) :
  cr_after b (s +:+ String c EmptyString) = Ascii.eqb c CR.
Proof.
  revert b. induction s as [|a s IH]; intros b; [done|].
  rewrite string_app_cons. cbn [cr_after]. apply IH.
Qed.



(** *** The writer under the translation *)












(** *** Lines and characters *)





(** *** The reader on what the writer wrote *)

















(** *** What the writer wrote, read back *)






(** *** The identifiers [load_baseline] finds *)








(** ** A run after a run *)





Lemma filter_nil_all {A : Type} (P : A -> Prop) `{!forall x, Decision (P x)}
    (l : list A) :
  (forall x, x ∈ l -> ~ P x) -> filter P l = [].
Proof.
  induction l as [|x l IH]; intros Hl; [done|].
  rewrite filter_cons, decide_False by (apply Hl; by left).
  apply IH. intros y Hy. apply Hl. by right.
Qed.





(** ** Loading the address index *)











(** ** Timestamps written and read *)

Lemma digit_char_spec (d : Z) :
  0 <= d <= 9 -> is_digit (digit_char d) = true /\ digit_val (digit_char d) = d.
Proof.
  intros Hd.
  assert (H : d = 0 \/ d = 1 \/ d = 2 \/ d = 3 \/ d = 4 \/ d = 5 \/ d = 6
              \/ d = 7 \/ d = 8 \/ d = 9) by lia.
  repeat (destruct H as [->|H]; [by vm_compute|]). subst. by vm_compute.
Qed.

Lemma is_digit_plain (c : ascii) :
  is_digit c = true -> c <> "_"%char /\ c <> "."%char.
Proof.
  destruct c as [[] [] [] [] [] [] [] []]; vm_compute; intros; split; congruence.
Qed.

Lemma group_int_two (n : Z) : 0 <= n <= 99 -> group_int (two_digits n) = n.
Proof.
  intros Hn. unfold group_int, two_digits. cbn [list_ascii_of_string fold_left].
  destruct (digit_char_spec (n / 10)) as [-> ->];
    [Z.to_euclidean_division_equations; lia|].
  destruct (digit_char_spec (n mod 10)) as [-> ->];
    [Z.to_euclidean_division_equations; lia|].
  Z.to_euclidean_division_equations; lia.
Qed.

Lemma group_int_four (n : Z) : 0 <= n <= 9999 -> group_int (four_digits n) = n.
Proof.
  intros Hn. unfold group_int, four_digits. cbn [list_ascii_of_string fold_left].
  destruct (digit_char_spec (n / 1000)) as [-> ->];
    [Z.to_euclidean_division_equations; lia|].
  destruct (digit_char_spec (n / 100 mod 10)) as [-> ->];
    [Z.to_euclidean_division_equations; lia|].
  destruct (digit_char_spec (n / 10 mod 10)) as [-> ->];
    [Z.to_euclidean_division_equations; lia|].
  destruct (digit_char_spec (n mod 10)) as [-> ->];
    [Z.to_euclidean_division_equations; lia|].
  Z.to_euclidean_division_equations; lia.
Qed.

Lemma digits_two (n : Z) : 0 <= n <= 99 -> digits (two_digits n).
Proof.
  intros Hn. unfold digits, two_digits. cbn [list_ascii_of_string forallb].
  destruct (digit_char_spec (n / 10)) as [-> _];
    [Z.to_euclidean_division_equations; lia|].
  destruct (digit_char_spec (n mod 10)) as [-> _];
    [Z.to_euclidean_division_equations; lia|].
  done.
Qed.

Lemma digits_four (n : Z) : 0 <= n <= 9999 -> digits (four_digits n).
Proof.
  intros Hn. unfold digits, four_digits. cbn [list_ascii_of_string forallb].
  destruct (digit_char_spec (n / 1000)) as [-> _];
    [Z.to_euclidean_division_equations; lia|].
  destruct (digit_char_spec (n / 100 mod 10)) as [-> _];
    [Z.to_euclidean_division_equations; lia|].
  destruct (digit_char_spec (n / 10 mod 10)) as [-> _];
    [Z.to_euclidean_division_equations; lia|].
  destruct (digit_char_spec (n mod 10)) as [-> _];
    [Z.to_euclidean_division_equations; lia|].
  done.
Qed.

Lemma digits_app (s t : string) : digits s -> digits t -> digits (s +:+ t).
Proof.
  unfold digits. intros Hs Ht. induction s as [|c s IH]; [done|].
  rewrite string_app_cons. cbn [list_ascii_of_string forallb] in *.
  apply andb_true_iff in Hs as [-> Hs]. by apply IH.
Qed.

Lemma digits_no_char (c : ascii) (s : string) :
  c = "_"%char \/ c = "."%char -> digits s -> c ∉ chars s.
Proof.
  unfold digits, chars. intros Hc. induction s as [|a s IH]; intros Hs.
  - apply not_elem_of_nil.
  - cbn [list_ascii_of_string forallb] in *.
    apply andb_true_iff in Hs as [Ha Hs]. apply not_elem_of_cons.
    split; [|by apply IH]. destruct (is_digit_plain a Ha). by destruct Hc as [-> | ->].
Qed.

(** *** The groups of the regular expression *)

Ltac two_digit_cases n Hk :=
  repeat (destruct n as [|n]; [vm_compute in Hk |- *; by rewrite Hk|]).

Lemma match_Y_four {A : Type} (y : Z) (k : string -> string -> option A)
    (rest : string) (r : A) :
  0 <= y <= 9999 ->
  k (four_digits y) rest = Some r ->
  match_group re_Y k (four_digits y +:+ rest) = Some r.
Proof.
  intros Hy Hk. unfold four_digits in *.
  rewrite !string_app_cons, string_app_nil_l. unfold re_Y.
  cbn [match_group match_classes].
  destruct (digit_char_spec (y / 1000)) as [-> _];
    [Z.to_euclidean_division_equations; lia|].
  destruct (digit_char_spec (y / 100 mod 10)) as [-> _];
    [Z.to_euclidean_division_equations; lia|].
  destruct (digit_char_spec (y / 10 mod 10)) as [-> _];
    [Z.to_euclidean_division_equations; lia|].
  destruct (digit_char_spec (y mod 10)) as [-> _];
    [Z.to_euclidean_division_equations; lia|].
  by rewrite Hk.
Qed.

Lemma match_m_two {A : Type} (n : nat) (k : string -> string -> option A)
    (rest : string) (r : A) :
  (1 <= n <= 12)%nat ->
  k (two_digits (Z.of_nat n)) rest = Some r ->
  match_group re_m k (two_digits (Z.of_nat n) +:+ rest) = Some r.
Proof.
  intros Hn Hk. destruct n as [|n]; [lia|]. two_digit_cases n Hk. lia.
Qed.

Lemma match_d_two {A : Type} (n : nat) (k : string -> string -> option A)
    (rest : string) (r : A) :
  (1 <= n <= 31)%nat ->
  k (two_digits (Z.of_nat n)) rest = Some r ->
  match_group re_d k (two_digits (Z.of_nat n) +:+ rest) = Some r.
Proof.
  intros Hn Hk. destruct n as [|n]; [lia|]. two_digit_cases n Hk. lia.
Qed.

Lemma match_H_two {A : Type} (n : nat) (k : string -> string -> option A)
    (rest : string) (r : A) :
  (n <= 23)%nat ->
  k (two_digits (Z.of_nat n)) rest = Some r ->
  match_group re_H k (two_digits (Z.of_nat n) +:+ rest) = Some r.
Proof. intros Hn Hk. two_digit_cases n Hk. lia. Qed.

Lemma match_M_two {A : Type} (n : nat) (k : string -> string -> option A)
    (rest : string) (r : A) :
  (n <= 59)%nat ->
  k (two_digits (Z.of_nat n)) rest = Some r ->
  match_group re_M k (two_digits (Z.of_nat n) +:+ rest) = Some r.
Proof. intros Hn Hk. two_digit_cases n Hk. lia. Qed.

Lemma match_S_two {A : Type} (n : nat) (k : string -> string -> option A)
    (rest : string) (r : A) :
  (n <= 59)%nat ->
  k (two_digits (Z.of_nat n)) rest = Some r ->
  match_group re_S k (two_digits (Z.of_nat n) +:+ rest) = Some r.
Proof. intros Hn Hk. two_digit_cases n Hk. lia. Qed.

Lemma match_underscore {A : Type} (k : string -> string -> option A)
    (rest : string) (r : A) :
  k "_" rest = Some r ->
  match_group [[is_char "_"]] k ("_" +:+ rest) = Some r.
Proof. intros Hk. vm_compute in Hk |- *. by rewrite Hk. Qed.

Lemma days_in_month_le (y m : Z) : days_in_month y m <= 31.
Proof.
  unfold days_in_month.
  repeat (match goal with |- context [if ?b then _ else _] => destruct b end); lia.
Qed.

Lemma valid_datetime_bounds (t : datetime) :
  valid_datetime t ->
  1 <= dt_year t <= 9999 /\ 1 <= dt_month t <= 12 /\ 1 <= dt_day t <= 31
  /\ 0 <= dt_hour t <= 23 /\ 0 <= dt_minute t <= 59 /\ 0 <= dt_second t <= 59.
Proof.
  unfold valid_datetime, make_datetime.
  destruct (_ && _) eqn:E; [|done]. intros _.
  repeat (apply andb_true_iff in E as [E ?]).
  pose proof (days_in_month_le (dt_year t) (dt_month t)). lia.
Qed.

(** [strptime] reads what [strftime] wrote. *)
Lemma strptime_strftime (t : datetime) :
  valid_datetime t -> strptime (strftime t) = Some t.
Proof.
  intros Hv. destruct (valid_datetime_bounds t Hv) as (Hy & Hm & Hd & HH & HM & HS).
  assert (E : strptime_match (strftime t)
              = Some (four_digits (dt_year t), two_digits (dt_month t),
                      two_digits (dt_day t), two_digits (dt_hour t),
                      two_digits (dt_minute t), two_digits (dt_second t),
                      EmptyString)).
  { unfold strptime_match, strftime.
    rewrite <- (string_app_nil_r (two_digits (dt_second t))).
    rewrite <- (Z2Nat.id (dt_month t)), <- (Z2Nat.id (dt_day t)),
      <- (Z2Nat.id (dt_hour t)), <- (Z2Nat.id (dt_minute t)),
      <- (Z2Nat.id (dt_second t)) by lia.
    apply match_Y_four; [lia|]. cbv beta.
    apply match_m_two; [lia|]. cbv beta.
    apply match_d_two; [lia|]. cbv beta.
    apply match_underscore. cbv beta.
    apply match_H_two; [lia|]. cbv beta.
    apply match_M_two; [lia|]. cbv beta.
    apply match_S_two; [lia|]. done. }
  unfold strptime. rewrite E. cbn [String.eqb].
  rewrite group_int_four, !group_int_two by lia. exact Hv.
Qed.

(** *** File names *)

Lemma string_length_app (s t : string) :
  String.length (s +:+ t) = (String.length s + String.length t)%nat.
Proof.
  induction s as [|c s IH]; [done|]. rewrite string_app_cons.
  cbn [String.length]. by rewrite IH.
Qed.

Lemma substring_app (s t : string) : substring 0 (String.length s) (s +:+ t) = s.
Proof.
  induction s as [|c s IH].
  - by destruct t.
  - rewrite string_app_cons. cbn [String.length substring]. by rewrite IH.
Qed.

Lemma rfind_none (c : ascii) (s : string) : c ∉ chars s -> rfind c s = None.
Proof.
  unfold chars. induction s as [|a s IH]; [done|]. cbn [list_ascii_of_string rfind].
  intros [Ha Hs]%not_elem_of_cons. rewrite IH by done.
  destruct (Ascii.eqb_spec a c); [by subst|done].
Qed.

Lemma rfind_last (c : ascii) (base e : string) :
  c ∉ chars e -> rfind c (base +:+ String c e) = Some (String.length base).
Proof.
  intros He. induction base as [|a base IH].
  - rewrite string_app_nil_l. cbn [rfind]. rewrite rfind_none by done.
    by rewrite Ascii.eqb_refl.
  - rewrite string_app_cons. cbn [rfind String.length]. by rewrite IH.
Qed.

(** The stem of a name that ends with a suffix. *)
Lemma stem_suffix (base e : string) :
  base <> EmptyString -> e <> EmptyString -> "."%char ∉ chars e ->
  stem (base +:+ String "." e) = base.
Proof.
  intros Hb He Hdot. unfold stem. rewrite rfind_last by done.
  rewrite string_length_app. cbn [String.length].
  assert (H1 : (0 < String.length base)%nat) by (destruct base; [done|cbn; lia]).
  assert (H2 : (0 < String.length e)%nat) by (destruct e; [done|cbn; lia]).
  destruct (Nat.ltb_spec 0 (String.length base)); [|lia].
  destruct (Nat.ltb_spec (String.length base)
              (String.length base + S (String.length e) - 1)); [|lia].
  cbn [andb]. apply substring_app.
Qed.

Lemma split_on_plain (sep : ascii) (s : string) :
  sep ∉ chars s -> split_on sep s = [s].
Proof.
  unfold chars. induction s as [|a s IH]; [done|]. cbn [list_ascii_of_string split_on].
  intros [Ha Hs]%not_elem_of_cons. rewrite IH by done.
  destruct (Ascii.eqb_spec a sep); [by subst|done].
Qed.

Lemma split_on_sep (sep : ascii) (s rest : string) :
  sep ∉ chars s ->
  split_on sep (s +:+ String sep rest) = s :: split_on sep rest.
Proof.
  unfold chars. induction s as [|a s IH].
  - intros _. rewrite string_app_nil_l. cbn [split_on]. by rewrite Ascii.eqb_refl.
  - cbn [list_ascii_of_string]. intros [Ha Hs]%not_elem_of_cons.
    rewrite string_app_cons. cbn [split_on]. rewrite IH by done.
    destruct (Ascii.eqb_spec a sep); [by subst|done].
Qed.

Lemma strftime_parts (t : datetime) :
  valid_datetime t ->
  exists date_part time_part,
    strftime t = date_part +:+ String "_" time_part
    /\ digits date_part /\ digits time_part.
Proof.
  intros Hv. destruct (valid_datetime_bounds t Hv) as (Hy & Hm & Hd & HH & HM & HS).
  exists (four_digits (dt_year t) +:+ two_digits (dt_month t)
          +:+ two_digits (dt_day t)),
         (two_digits (dt_hour t) +:+ two_digits (dt_minute t)
          +:+ two_digits (dt_second t)).
  split_and!.
  - unfold strftime. by rewrite !string_app_assoc.
  - repeat apply digits_app; (apply digits_four || apply digits_two); lia.
  - repeat apply digits_app; apply digits_two; lia.
Qed.

(** The timestamp of a name made of a prefix of two parts, the text of a
    time and a suffix. *)
Lemma file_timestamp_snapshot (a b e : string) (t : datetime) :
  valid_datetime t ->
  "_"%char ∉ chars a -> "_"%char ∉ chars b ->
  e <> EmptyString -> "."%char ∉ chars e ->
  file_timestamp (a +:+ String "_" (b +:+ String "_" (strftime t +:+ String "." e)))
  = Some t.
Proof.
  intros Hv Ha Hb He Hdot.
  destruct (strftime_parts t Hv) as (dp & tp & E & Hdp & Htp).
  unfold file_timestamp.
  replace (a +:+ String "_" (b +:+ String "_" (strftime t +:+ String "." e)))
    with ((a +:+ String "_" (b +:+ String "_" (strftime t))) +:+ String "." e)
    by by rewrite !string_app_assoc, !string_app_cons, !string_app_assoc.
  rewrite stem_suffix; [|by destruct a|done|done].
  rewrite split_on_sep, split_on_sep, E, split_on_sep, split_on_plain
    by (done || by apply digits_no_char; [left|]).
  cbn [length Nat.sub nth Nat.leb].
  change (dp +:+ "_" +:+ tp) with (dp +:+ String "_" tp). rewrite <- E.
  by apply strptime_strftime.
Qed.

Lemma run_call_names (env : run_env) (send_email_notification : bool) (w : world)
    (c : call) (name : string) :
  c ∈ (run env send_email_notification w).2 ->
  call_filename c = Some name ->
  name ∈ ["fetched_records_" +:+ start_stamp env +:+ ".csv";
          "fetched_records_" +:+ start_stamp env +:+ ".json";
          "new_records_" +:+ start_stamp env +:+ ".csv";
          "new_records_" +:+ start_stamp env +:+ ".json"].
Proof.
  unfold run.
  destruct (fetch_all_records (fetch_page env) true) as [|r0 fetched];
    [by intros ?%elem_of_nil|].
  destruct (sort_by_id_desc (r0 :: fetched)) as [all_records|];
    [|by intros ?%elem_of_nil].
  cbv zeta. intros Hc. revert name.
  revert c Hc.
  refine (proj1 (Forall_forall
            (fun c => forall name, call_filename c = Some name -> name ∈ _) _) _).
  destruct (forallb date_sliceable _); cbn [snd].
  all: destruct (bool_decide (identify_new_records all_records _ = [])),
         (_ && send_email_notification).
  all: cbn [app].
  all: repeat first
         [ apply Forall_nil_2
         | apply Forall_cons; split;
           [intros name Hn; simplify_eq/=; set_solver|] ].
Qed.

(** The files of a run are tracked: [strptime] reads the time
    [strftime] wrote, and each of the four snapshot names made with the
    time a run started, a valid time of a year of four digits, carries
    that time for the retention pass; every file a run writes in the
    output directory has one of these names. *)
Theorem snapshot_names_tracked (t : datetime) :
  valid_datetime t ->
  1000 <= dt_year t ->
  strptime (strftime t) = Some t
  /\ Forall (fun name => file_timestamp name = Some t) (snapshot_names t)
  /\ (forall env send_email_notification w c name,
        start_stamp env = strftime t ->
        c ∈ (run env send_email_notification w).2 ->
        call_filename c = Some name ->
        file_timestamp name = Some t).
Proof.
  intros Hv Hy.
  assert (Hnames : Forall (fun name => file_timestamp name = Some t)
                     (snapshot_names t)).
  { unfold snapshot_names.
    repeat (apply Forall_cons; split); [..|apply Forall_nil_2].
    - apply (file_timestamp_snapshot "fetched" "records" "csv"); try done;
        by vm_compute; intros H; repeat (apply elem_of_cons in H as [H|H];
             [discriminate H|]); apply elem_of_nil in H.
    - apply (file_timestamp_snapshot "fetched" "records" "json"); try done;
        by vm_compute; intros H; repeat (apply elem_of_cons in H as [H|H];
             [discriminate H|]); apply elem_of_nil in H.
    - apply (file_timestamp_snapshot "new" "records" "csv"); try done;
        by vm_compute; intros H; repeat (apply elem_of_cons in H as [H|H];
             [discriminate H|]); apply elem_of_nil in H.
    - apply (file_timestamp_snapshot "new" "records" "json"); try done;
        by vm_compute; intros H; repeat (apply elem_of_cons in H as [H|H];
             [discriminate H|]); apply elem_of_nil in H. }
  split_and!; [by apply strptime_strftime|done|].
  intros env send w c name Hstamp Hc Hname.
  pose proof (run_call_names env send w c name Hc Hname) as Hin.
  rewrite Hstamp in Hin. rewrite Forall_forall in Hnames. by apply Hnames.
Qed.

Lemma snapshot_names_tracked_example :
  file_timestamp "fetched_records_20240302_060000.csv"
  = Some (mk_datetime 2024 3 2 6 0 0).
Proof.
  assert (Hv : valid_datetime (mk_datetime 2024 3 2 6 0 0)) by reflexivity.
  assert (Hy : 1000 <= dt_year (mk_datetime 2024 3 2 6 0 0)) by (cbn; lia).
  destruct (snapshot_names_tracked _ Hv Hy) as (_ & Hnames & _).
  apply Forall_cons in Hnames as [Hfirst _]. exact Hfirst.
Defined.

(** ** Change detection, composed *)

(** Detection composes: the new records among the new records against a
    second baseline are the new records against both; the new records of
    a list made of two are those of the first, then those of the second;
    no record is new exactly when every identifier is empty or known; and
    a record listed twice is reported as often as it is listed. *)
Theorem identify_new_records_compose (R R' : list record) (B B' : gset string) :
  identify_new_records (identify_new_records R B) B'
  = identify_new_records R (B ∪ B')
  /\ identify_new_records (R ++ R') B
     = identify_new_records R B ++ identify_new_records R' B
  /\ (identify_new_records R B = []
      <-> forall r, r ∈ R -> str_id r = EmptyString \/ str_id r ∈ B)
  /\ (forall r, str_id r <> EmptyString -> str_id r ∉ B ->
        identify_new_records (replicate (length R) r) B
        = replicate (length R) r).
Proof.
  rewrite !identify_new_records_filter. split_and!.
  - rewrite list_filter_filter. apply list_filter_iff.
    intros r. unfold is_new. set_solver.
  - apply filter_app.
  - split.
    + intros E r Hr. destruct (decide (str_id r = EmptyString)) as [|Hid]; [by left|].
      right. destruct (decide (str_id r ∈ B)) as [|Hin]; [done|]. exfalso.
      assert (Hf : r ∈ filter (is_new B) R) by by apply list_elem_of_filter.
      rewrite E in Hf. by apply elem_of_nil in Hf.
    + intros H. apply filter_nil_all. intros r Hr [Hid Hin].
      destruct (H r Hr); done.
  - intros r Hid Hin. rewrite identify_new_records_filter.
    induction (length R) as [|n IH]; [done|]. cbn [replicate].
    rewrite filter_cons, decide_True by done. by rewrite IH.
Qed.

(** ** How a run ends *)







(** ** The number of files to keep *)

(** The counts of a pass, whatever the number of files to keep: of [n]
    ranked files a pass keeps [min k n] for a [k] that is not negative
    and, as a slice does, [n] less [min (-k) n] for a negative one; a dry
    run reports the others as deleted and leaves the directory as it is,
    so that the two counts add up to [n].  A directory that is missing
    gives two zeros. *)
Theorem keep_count_bounds (env : fs_env) (keep_count : Z) (dir : directory)
    (pattern : string) :
  let n := length (get_timestamped_files env (Some dir) pattern) in
  let kept :=
    if keep_count <? 0 then (n - Nat.min (Z.to_nat (- keep_count)) n)%nat
    else Nat.min (Z.to_nat keep_count) n in
  cleanup_old_files env keep_count (Some dir) pattern true
  = (Some dir, (kept, (n - kept)%nat))
  /\ (cleanup_old_files env keep_count (Some dir) pattern false).2.1 = kept
  /\ ((cleanup_old_files env keep_count (Some dir) pattern false).2.2 <= n - kept)%nat
  /\ (forall dry_run,
        cleanup_old_files env keep_count None pattern dry_run = (None, (O, O))).
Proof.
  intros n kept.
  assert (Hb : slice_bound keep_count n = kept).
  { unfold slice_bound, kept. destruct (keep_count <? 0) eqn:E.
    - apply Z.ltb_lt in E. lia.
    - apply Z.ltb_ge in E. lia. }
  assert (Hto : length (slice_to keep_count
                          (get_timestamped_files env (Some dir) pattern)) = kept).
  { unfold slice_to. fold n. rewrite Hb, length_firstn. fold n. unfold kept.
    destruct (keep_count <? 0); lia. }
  assert (Hfrom : length (slice_from keep_count
                            (get_timestamped_files env (Some dir) pattern))
                  = (n - kept)%nat).
  { unfold slice_from. fold n. rewrite Hb, length_skipn. by fold n. }
  split_and!.
  - rewrite cleanup_old_files_unfold, delete_files_dry. cbn [fst].
    by rewrite Hto, Hfrom.
  - rewrite cleanup_old_files_unfold. cbn [fst snd]. done.
  - rewrite cleanup_old_files_unfold. cbn [fst snd]. rewrite <- Hfrom.
    generalize (slice_from keep_count
                  (get_timestamped_files env (Some dir) pattern)).
    intros files. generalize dir. induction files as [|[f t] files IH]; intros d.
    + cbn. lia.
    + rewrite delete_files_cons. destruct (unlink env d f) as [d'|].
      * rewrite delete_files_shift. cbn [snd length]. specialize (IH d'). lia.
      * cbn [length]. specialize (IH d). lia.
  - done.
Qed.
